(** * XTE-Visualizer: navigation-log parsing and cross-track-error statistics

    A shallow embedding of [histogramAnalysis.py] and [lineCreator.py].

    - [Float64]: Python's [float] (IEEE 754 binary64), on the bit-exact
      [spec_float] operations of the standard library.
    - [PyStr]: the [str] methods the parser calls ([startswith], [strip],
      [split]) and the [float(str)] constructor.
    - [Numpy]: the reductions the histogram tool prints ([np.mean],
      [np.std], [np.max], [np.abs], [np.percentile]).
    - [HistogramAnalysis], [LineCreator]: [parse_navigation_log] and [main]
      of each script.

    A character is a code point below 256 ([ascii]); a file is the text
    [open(filepath, 'r')] decodes. *)

From Stdlib Require Import ZArith Ascii String DecimalString.
From Stdlib Require Import Floats.SpecFloat.
From stdpp Require Import base list sorting gmap strings.

Local Open Scope Z_scope.

(** ** Python floats *)

Module Float64.

Definition prec : Z := 53.
Definition emax : Z := 1024.

Definition float : Set := spec_float.

Definition nan : float := S754_nan.
Definition inf : float := S754_infinity false.
Definition zero : float := S754_zero false.
Definition neg_zero : float := S754_zero true.

Definition add : float -> float -> float := SFadd prec emax.
Definition sub : float -> float -> float := SFsub prec emax.
Definition mul : float -> float -> float := SFmul prec emax.
Definition div : float -> float -> float := SFdiv prec emax.
Definition sqrt : float -> float := SFsqrt prec emax.
Definition abs : float -> float := SFabs.
Definition opp : float -> float := SFopp.

Definition ltb : float -> float -> bool := SFltb.
Definition leb : float -> float -> bool := SFleb.

Definition isnan (x : float) : bool :=
  match x with S754_nan => true | _ => false end.

Definition isfinite (x : float) : bool :=
  match x with S754_zero _ | S754_finite _ _ _ => true | _ => false end.

(** [float(n)] for an integer [n]: round to nearest, ties to even. *)
Definition of_Z (n : Z) : float := binary_normalize prec emax n 0 false.

(** The float nearest to [(-1)^s * n / d], for [0 <= n] and [0 < d]: the
    quotient is taken on a grid of [2^-1074], as fine as the smallest
    subnormal, and the remainder tells on which side of a tie it lies. *)
Definition of_ratio (s : bool) (n d : Z) : float :=
  let '(q, r) := Z.div_eucl (Z.shiftl n 1074) d in
  binary_round_aux prec emax s q (-1074) (new_location d r).

(** [math.floor] of a finite float. *)
Definition floor (x : float) : option Z :=
  match x with
  | S754_zero _ => Some 0
  | S754_finite s m e =>
      let v := if s then Z.neg m else Z.pos m in
      Some (if 0 <=? e then Z.shiftl v e else Z.shiftr v (- e))
  | _ => None
  end.

End Float64.

#[global] Instance float_eq_dec : EqDecision Float64.float :=
  ltac:(unfold Float64.float; solve_decision).

(** ** Python strings *)

Module PyStr.

Definition code (c : ascii) : N := N_of_ascii c.

(** [str.isspace] on one character, below U+0100. *)
Definition isspace (c : ascii) : bool :=
  let n := code c in
  ((9 <=? n) && (n <=? 13) || (28 <=? n) && (n <=? 32)
   || (n =? 133) || (n =? 160))%N.

(** C's [isspace], as [Py_ISSPACE] has it. *)
Definition isspace_c (c : ascii) : bool :=
  let n := code c in ((9 <=? n) && (n <=? 13) || (n =? 32))%N.

Definition isdigit (c : ascii) : bool :=
  let n := code c in ((48 <=? n) && (n <=? 57))%N.

Definition tolower (c : ascii) : ascii :=
  let n := code c in
  if ((65 <=? n) && (n <=? 90))%N then ascii_of_N (n + 32) else c.

(** [s.startswith(p)] *)
Fixpoint startswith (s p : string) : bool :=
  match p, s with
  | EmptyString, _ => true
  | String a p', String b s' => Ascii.eqb a b && startswith s' p'
  | String _ _, EmptyString => false
  end.

Fixpoint lstrip (s : string) : string :=
  match s with
  | String c s' => if isspace c then lstrip s' else s
  | EmptyString => EmptyString
  end.

Fixpoint rstrip (s : string) : string :=
  match s with
  | String c s' =>
      match rstrip s' with
      | EmptyString => if isspace c then EmptyString else String c EmptyString
      | t => String c t
      end
  | EmptyString => EmptyString
  end.

(** [s.strip()] *)
Definition strip (s : string) : string := rstrip (lstrip s).

(** Truth value of a string: it is not empty. *)
Definition truthy (s : string) : bool :=
  match s with EmptyString => false | String _ _ => true end.

(** [s.split(sep)] for a separator of one character. *)
Fixpoint split (s : string) (sep : ascii) : list string :=
  match s with
  | EmptyString => [EmptyString]
  | String c s' =>
      if Ascii.eqb c sep then EmptyString :: split s' sep
      else match split s' sep with
           | p :: ps => String c p :: ps
           | [] => [String c EmptyString]
           end
  end.

(** *** [float(s)]

    CPython first turns every non-ASCII space into a blank, drops
    white space at both ends, takes out the underscores that stand
    between two digits, and then reads
    [[sign] (digits [. digits] | . digits) [(e|E) [sign] digits]] or
    [[sign] (inf | infinity | nan)], the whole string, rounding the
    decimal to the nearest float. *)

Definition space_to_ascii (c : ascii) : ascii :=
  if (127 <=? code c)%N && isspace c then " "%char else c.

Fixpoint lstrip_c (cs : list ascii) : list ascii :=
  match cs with
  | c :: cs' => if isspace_c c then lstrip_c cs' else cs
  | [] => []
  end.

Definition strip_c (cs : list ascii) : list ascii :=
  rev (lstrip_c (rev (lstrip_c cs))).

Fixpoint remove_underscores (prev : ascii) (cs : list ascii)
  : option (list ascii) :=
  match cs with
  | [] => if Ascii.eqb prev "_" then None else Some []
  | c :: cs' =>
      if Ascii.eqb c "_" then
        if isdigit prev then remove_underscores c cs' else None
      else if Ascii.eqb prev "_" && negb (isdigit c) then None
      else option_map (cons c) (remove_underscores c cs')
  end.

Fixpoint span_digits (cs : list ascii) : list ascii * list ascii :=
  match cs with
  | c :: cs' =>
      if isdigit c then let '(ds, r) := span_digits cs' in (c :: ds, r)
      else ([], cs)
  | [] => ([], [])
  end.

Definition digits_to_Z (ds : list ascii) : Z :=
  fold_left (fun acc c => 10 * acc + (Z.of_N (code c) - 48)) ds 0.

Definition take_sign (cs : list ascii) : bool * list ascii :=
  match cs with
  | c :: cs' =>
      if Ascii.eqb c "-" then (true, cs')
      else if Ascii.eqb c "+" then (false, cs')
      else (false, cs)
  | [] => (false, [])
  end.

(** The value of the decimal [n * 10^ex]. *)
Definition decimal_to_float (s : bool) (n ex : Z) : Float64.float :=
  if 0 <=? ex then Float64.of_ratio s (n * 10 ^ ex) 1
  else Float64.of_ratio s n (10 ^ (- ex)).

Definition parse_exponent (cs : list ascii) : option Z :=
  match cs with
  | [] => Some 0
  | c :: cs' =>
      if Ascii.eqb (tolower c) "e" then
        let '(s, r) := take_sign cs' in
        let '(ds, r') := span_digits r in
        match ds, r' with
        | _ :: _, [] =>
            Some (if s then - digits_to_Z ds else digits_to_Z ds)
        | _, _ => None
        end
      else None
  end.

Definition parse_number (s : bool) (cs : list ascii)
  : option Float64.float :=
  let '(ip, r1) := span_digits cs in
  let '(fp, r2) :=
    match r1 with
    | c :: r => if Ascii.eqb c "." then span_digits r else ([], r1)
    | [] => ([], [])
    end in
  match ip ++ fp with
  | [] => None
  | ds =>
      match parse_exponent r2 with
      | Some ex =>
          Some (decimal_to_float s (digits_to_Z ds)
                  (ex - Z.of_nat (length fp)))
      | None => None
      end
  end.

Definition parse_inf_or_nan (s : bool) (cs : list ascii)
  : option Float64.float :=
  let w := string_of_list_ascii (map tolower cs) in
  if String.eqb w "inf" || String.eqb w "infinity" then
    Some (S754_infinity s)
  else if String.eqb w "nan" then Some Float64.nan
  else None.

Definition float (str : string) : option Float64.float :=
  match strip_c (map space_to_ascii (list_ascii_of_string str)) with
  | [] => None
  | cs =>
      match remove_underscores "000" cs with
      | None => None
      | Some cs' =>
          let '(s, body) := take_sign cs' in
          match body with
          | c :: _ =>
              if isdigit c || Ascii.eqb c "." then parse_number s body
              else parse_inf_or_nan s body
          | [] => None
          end
      end
  end.

(** [str(n)] for a length or a count. *)
Definition of_nat (n : nat) : string :=
  NilEmpty.string_of_uint (Nat.to_uint n).

End PyStr.

Local Close Scope Z_scope.

(** ** Exceptions and the working directory *)

Inductive exn : Set :=
  | ValueError
  | IndexError
  | FileNotFoundError.

Inductive result (A : Type) : Type :=
  | Ok (a : A)
  | Raise (e : exn).
Arguments Ok {A} a.
Arguments Raise {A} e.

#[global] Instance result_ret : MRet result := @Ok.
#[global] Instance result_bind : MBind result :=
  fun A B f r => match r with Ok a => f a | Raise e => Raise e end.

(** [float(s)], which raises [ValueError] on a string that is no number. *)
Definition py_float (s : string) : result Float64.float :=
  match PyStr.float s with
  | Some x => Ok x
  | None => Raise ValueError
  end.

(** [l[i]] *)
Definition getitem {A} (l : list A) (i : nat) : result A :=
  match l !! i with
  | Some x => Ok x
  | None => Raise IndexError
  end.

(** The files below the script's folder: path, relative to the folder,
    to decoded content. *)
Abbreviation directory := (gmap string string).

(** One row of a log: the dict [{'xte': .., 'lat': .., 'lon': ..}]. *)
Record Sample : Set := mkSample {
  xte : Float64.float;
  lat : Float64.float;
  lon : Float64.float
}.

(** One entry of [all_runs_data]: [{'name': .., 'data': ..}]. *)
Record Run : Set := mkRun {
  name : string;
  data : list Sample
}.

Definition LF : ascii := "010"%char.
Definition CR : ascii := "013"%char.
Definition TAB : ascii := "009"%char.

(** Text mode with universal newlines: [\r\n] and a lone [\r] are read
    as [\n]. *)
Fixpoint universal_newlines (s : string) : string :=
  match s with
  | EmptyString => EmptyString
  | String c s' =>
      if Ascii.eqb c CR then
        match s' with
        | String c' _ =>
            if Ascii.eqb c' LF then universal_newlines s'
            else String LF (universal_newlines s')
        | EmptyString => String LF EmptyString
        end
      else String c (universal_newlines s')
  end.

(** The lines of a text, each with its newline; a last line without a
    newline is a line too. *)
Fixpoint split_lines (s : string) : list string :=
  match s with
  | EmptyString => []
  | String c s' =>
      if Ascii.eqb c LF then String c EmptyString :: split_lines s'
      else match split_lines s' with
           | l :: ls => String c l :: ls
           | [] => [String c EmptyString]
           end
  end.

(** [f.readlines()] on a file of this content. *)
Definition readlines (text : string) : list string :=
  split_lines (universal_newlines text).

(** What either tool does to the outside, in order. [Mkdir] stands for
    [output_dir.mkdir(exist_ok=True)] on a folder that can be made or is
    there already, [PrintStat] for a line of the report that shows the
    value in metres and in centimetres, [PrintFileSize] for the line
    with the size of the saved image. *)
Inductive effect : Set :=
  | Mkdir (path : string)
  | Print (s : string)
  | PrintStat (label : string) (value : Float64.float)
  | SaveFig (path : string)
  | Unlink (path : string)
  | PrintFileSize (path : string).

(** A computation that appends to the trace of effects and returns or
    raises. *)
Definition io (A : Type) : Type := list effect -> list effect * result A.

#[global] Instance io_ret : MRet io := fun A a tr => (tr, Ok a).
#[global] Instance io_bind : MBind io :=
  fun A B f m tr =>
    match m tr with
    | (tr', Ok a) => f a tr'
    | (tr', Raise e) => (tr', Raise e)
    end.

Definition emit (e : effect) : io unit := fun tr => (tr ++ [e], Ok tt).
Definition lift {A} (r : result A) : io A := fun tr => (tr, r).

(** Names that [glob('NavigationLog_*.txt')] yields: the star matches
    anything but a path separator. *)
Definition log_prefix : string := "NavigationLog_".
Definition log_suffix : string := ".txt".

Fixpoint endswith_no_sep (s suffix : string) : bool :=
  String.eqb s suffix ||
  match s with
  | String c s' => negb (Ascii.eqb c "/") && endswith_no_sep s' suffix
  | EmptyString => false
  end.

Fixpoint match_after_prefix (p s : string) : bool :=
  match p, s with
  | EmptyString, _ => endswith_no_sep s log_suffix
  | String a p', String b s' => Ascii.eqb a b && match_after_prefix p' s'
  | String _ _, EmptyString => false
  end.

Definition is_log_name (path : string) : bool :=
  match_after_prefix log_prefix path.

Definition str_le (a b : string) : Prop := String.leb a b = true.

#[global] Instance str_le_dec a b : Decision (str_le a b) :=
  decide (String.leb a b = true).

(** [sorted(base_dir.glob('NavigationLog_*.txt'))] *)
Definition glob_sorted (fs : directory) : list string :=
  merge_sort str_le (filter (fun p => is_log_name p = true)
                       (map fst (map_to_list fs))).

(** [Path.stem] of a name that ends in [.txt]. *)
Definition stem (path : string) : string :=
  String.substring 0 (String.length path - String.length log_suffix) path.

(** ** NumPy reductions on a one-dimensional [float64] array

    As NumPy 1.22 and later compute them: sums by [pairwise_sum],
    percentiles by [_quantile] and [_lerp]. *)

Module Numpy.
Import Float64.

Definition array : Set := list float.

(** [np.abs(a)] *)
Definition np_abs (a : array) : array := map abs a.

(** Summation as NumPy's [pairwise_sum] does it: in order below 8
    elements, on 8 lanes up to 128, by halves above. *)
Definition sum_in_order (a : array) (start : float) : float :=
  fold_left add a start.

Fixpoint add_rows (r : list float) (a : array) (rows : nat) : list float :=
  match rows with
  | O => r
  | S k => add_rows (zip_with add r (take 8 a)) (drop 8 a) k
  end.

Definition sum_lanes (a : array) : float :=
  let n := length a in
  match add_rows (take 8 a) (drop 8 a) (n / 8 - 1) with
  | [r0; r1; r2; r3; r4; r5; r6; r7] =>
      sum_in_order (drop (n - n mod 8) a)
        (add (add (add r0 r1) (add r2 r3)) (add (add r4 r5) (add r6 r7)))
  | _ => sum_in_order a neg_zero
  end.

Fixpoint pairwise_sum_rec (depth : nat) (a : array) : float :=
  let n := length a in
  if n <? 8 then sum_in_order a neg_zero
  else if n <=? 128 then sum_lanes a
  else match depth with
       | O => sum_lanes a
       | S d =>
           let n2 := n / 2 - (n / 2) mod 8 in
           add (pairwise_sum_rec d (take n2 a))
               (pairwise_sum_rec d (drop n2 a))
       end.

(** Each halving at least halves, so [length a] levels are enough. *)
Definition pairwise_sum (a : array) : float :=
  pairwise_sum_rec (length a) a.

(** [np.sum(a)]: the reduction starts from the identity of [add]. *)
Definition np_sum (a : array) : float := add zero (pairwise_sum a).

Definition count (a : array) : float := of_Z (Z.of_nat (length a)).

(** [np.mean(a)] *)
Definition np_mean (a : array) : float := div (np_sum a) (count a).

(** [np.std(a)], with the default [ddof=0]. *)
Definition np_std (a : array) : float :=
  let arrmean := div (np_sum a) (count a) in
  let x := map (fun v => sub v arrmean) a in
  let x := map (fun v => mul v v) x in
  sqrt (div (np_sum x) (count a)).

(** [np.maximum(x, y)]: the larger, or a NaN if there is one. *)
Definition maximum (x y : float) : float :=
  if leb y x || isnan x then x else y.

(** [np.max(a)] *)
Definition np_max (a : array) : result float :=
  match a with
  | [] => Raise ValueError
  | x :: a' => Ok (fold_left maximum a' x)
  end.

(** The order NumPy sorts floats in: NaN after everything else. *)
Definition sort_lt (x y : float) : bool :=
  ltb x y || (isnan y && negb (isnan x)).

Definition sort_le (x y : float) : Prop := sort_lt y x = false.

#[global] Instance sort_le_dec x y : Decision (sort_le x y) :=
  decide (sort_lt y x = false).

Definition np_sort (a : array) : array := merge_sort sort_le a.

(** [a[i]] with Python's negative indices; NaN stands for the
    [IndexError] that the callers below never meet. *)
Definition item (a : array) (i : Z) : float :=
  let j := if (i <? 0)%Z then (Z.of_nat (length a) + i)%Z else i in
  if (j <? 0)%Z then nan else default nan (a !! Z.to_nat j).

(** [_lerp(a, b, t)] *)
Definition lerp (a b t : float) : float :=
  let diff_b_a := sub b a in
  if leb (div (of_Z 1) (of_Z 2)) t
  then sub b (mul diff_b_a (sub (of_Z 1) t))
  else add a (mul diff_b_a t).

(** [np.percentile(a, q)] for an integer [q], with the default method
    ['linear'], on an array that is not empty. *)
Definition np_percentile (a : array) (q : Z) : float :=
  let quantile := div (of_Z q) (of_Z 100) in
  let n := Z.of_nat (length a) in
  let virtual_index := mul (of_Z (n - 1)) quantile in
  let previous_index :=
    if ltb virtual_index zero then 0%Z
    else if leb (of_Z (n - 1)) virtual_index then (-1)%Z
    else default (-1)%Z (floor virtual_index) in
  let next_index :=
    if ltb virtual_index zero then 0%Z
    else if leb (of_Z (n - 1)) virtual_index then (-1)%Z
    else (default (-1)%Z (floor virtual_index) + 1)%Z in
  let arr := np_sort a in
  let gamma := sub virtual_index (of_Z previous_index) in
  if isnan (item arr (-1)) then nan
  else lerp (item arr previous_index) (item arr next_index) gamma.

End Numpy.

Definition NL : string := String LF EmptyString.

Fixpoint str_repeat (s : string) (n : nat) : string :=
  match n with
  | O => EmptyString
  | S k => s +:+ str_repeat s k
  end.

(** ** histogramAnalysis.py *)

Module HistogramAnalysis.

(** The loop over [lines], with [data_start] and [data] as it goes. *)
Fixpoint parse_lines (lines : list string) (data_start : bool)
    (data : list Sample) : result (list Sample) :=
  match lines with
  | [] => Ok data
  | line :: rest =>
      let data_start :=
        if PyStr.startswith line "2025-" then true else data_start in
      if data_start && PyStr.truthy (PyStr.strip line) then
        let parts := PyStr.split line TAB in
        if 4 <=? length parts then
          xte ← getitem parts 1 ≫= py_float;
          lat ← getitem parts 2 ≫= py_float;
          lon ← getitem parts 3 ≫= py_float;
          parse_lines rest data_start (data ++ [mkSample xte lat lon])
        else parse_lines rest data_start data
      else parse_lines rest data_start data
  end.

(** [parse_navigation_log] on a file that opens, by its content. *)
Definition parse_text (text : string) : result (list Sample) :=
  parse_lines (readlines text) false [].

Definition parse_navigation_log (fs : directory) (filepath : string)
  : result (list Sample) :=
  match fs !! filepath with
  | None => Raise FileNotFoundError
  | Some text => parse_text text
  end.

Definition output_dir : string := "histogram_analysis".
Definition histogram_file : string :=
  output_dir +:+ "/Combined_XTE_Histogram.png".

Section Main.
(** The matplotlib calls of [plot_combined_histogram], up to
    [plt.savefig]. *)
Variable draw_histogram : Numpy.array -> result unit.

Definition plot_combined_histogram (all_runs_data : list Run)
    (output_file : string) : io Numpy.array :=
  let all_xtes := flat_map (fun run_data => map xte (data run_data))
                    all_runs_data in
  lift (draw_histogram all_xtes);;
  emit (SaveFig output_file);;
  mret all_xtes.

(** The loop over [log_files]. *)
Fixpoint process_logs (fs : directory) (log_files : list string)
    (all_runs_data : list Run) : io (list Run) :=
  match log_files with
  | [] => mret all_runs_data
  | log_file :: rest =>
      emit (Print ("Loading: " +:+ log_file));;
      data ← lift (parse_navigation_log fs log_file);
      if length data <? 2 then
        emit (Print ("  Insufficient data in " +:+ log_file));;
        process_logs fs rest all_runs_data
      else
        process_logs fs rest
          (all_runs_data ++ [mkRun (stem log_file) data])
  end.

Definition print_statistics (all_xtes : Numpy.array) : io unit :=
  emit (Print (NL +:+ str_repeat "=" 60));;
  emit (Print "COMBINED STATISTICS (All Runs)");;
  emit (Print (str_repeat "=" 60));;
  emit (Print ("Total data points: "
               +:+ PyStr.of_nat (length all_xtes)));;
  emit (PrintStat "Mean Cross Track Error" (Numpy.np_mean all_xtes));;
  emit (PrintStat "Mean |Cross Track Error|"
          (Numpy.np_mean (Numpy.np_abs all_xtes)));;
  emit (PrintStat "Std deviation" (Numpy.np_std all_xtes));;
  m ← lift (Numpy.np_max (Numpy.np_abs all_xtes));
  emit (PrintStat "Max |Cross Track Error|" m);;
  emit (PrintStat "95th percentile |Cross Track Error|"
          (Numpy.np_percentile (Numpy.np_abs all_xtes) 95));;
  emit (Print (str_repeat "=" 60)).

Definition main (fs : directory) : io unit :=
  emit (Mkdir output_dir);;
  let log_files := glob_sorted fs in
  match log_files with
  | [] => emit (Print "No navigation log files found!")
  | _ :: _ =>
      emit (Print ("Found " +:+ PyStr.of_nat (length log_files)
                   +:+ " navigation log files"));;
      all_runs_data ← process_logs fs log_files [];
      match all_runs_data with
      | _ :: _ =>
          emit (Print (NL +:+ "Generating combined histogram..."));;
          all_xtes ← plot_combined_histogram all_runs_data
                       histogram_file;
          emit (Print ("Saved combined histogram: "
                       +:+ histogram_file));;
          print_statistics all_xtes;;
          emit (Print (NL +:+ "Histogram saved to: "
                       +:+ output_dir +:+ "/"))
      | [] =>
          emit (Print "No valid data found for histogram generation.")
      end
  end.
End Main.

End HistogramAnalysis.

(** ** lineCreator.py *)

Module LineCreator.

(** The loop over [lines], with [data_start] and [data] as it goes. *)
Fixpoint parse_lines (lines : list string) (data_start : bool)
    (data : list Sample) : result (list Sample) :=
  match lines with
  | [] => Ok data
  | line :: rest =>
      let data_start :=
        if PyStr.startswith line "2025-" then true else data_start in
      if data_start && PyStr.truthy (PyStr.strip line) then
        let parts := PyStr.split line TAB in
        if 4 <=? length parts then
          xte ← getitem parts 1 ≫= py_float;
          lat ← getitem parts 2 ≫= py_float;
          lon ← getitem parts 3 ≫= py_float;
          parse_lines rest data_start (data ++ [mkSample xte lat lon])
        else parse_lines rest data_start data
      else parse_lines rest data_start data
  end.

Definition parse_text (text : string) : result (list Sample) :=
  parse_lines (readlines text) false [].

Definition parse_navigation_log (fs : directory) (filepath : string)
  : result (list Sample) :=
  match fs !! filepath with
  | None => Raise FileNotFoundError
  | Some text => parse_text text
  end.

(** The dict [{'start': .., 'end': .., 'slope': ..}]. *)
Record ABLine : Set := mkABLine {
  ab_start : Sample;
  ab_end : Sample;
  slope : Float64.float
}.

(** [x != y] on floats: a NaN differs from everything, itself included,
    and the two zeros are equal. *)
Definition float_ne (x y : Float64.float) : bool := negb (SFeqb x y).

Definition is_zero (x : Float64.float) : bool :=
  match x with S754_zero _ => true | _ => false end.

(** [x / y] on floats; [None] stands for the [ZeroDivisionError] that
    Python raises when [y] is a zero. *)
Definition truediv (x y : Float64.float) : option Float64.float :=
  if is_zero y then None else Some (Float64.div x y).

(** [create_ab_line(point_a, point_b)]; [None] stands for
    [ZeroDivisionError], the one exception its body can raise. *)
Definition create_ab_line (point_a point_b : Sample) : option ABLine :=
  slope ← (if float_ne (lat point_b) (lat point_a)
           then truediv (Float64.sub (lon point_b) (lon point_a))
                        (Float64.sub (lat point_b) (lat point_a))
           else Some Float64.inf);
  Some (mkABLine point_a point_b slope).

(** [l[-1]] *)
Definition getitem_last {A} (l : list A) : result A :=
  match last l with
  | Some x => Ok x
  | None => Raise IndexError
  end.

(** The two points that [plot_combined_navigation] hands to
    [create_ab_line]: [first_data[0]] and [first_data[-1]] of
    [first_data = all_runs_data[0]['data']]. *)
Definition ab_line_points (all_runs_data : list Run)
  : result (Sample * Sample) :=
  first_run ← getitem all_runs_data 0;
  point_a ← getitem (data first_run) 0;
  point_b ← getitem_last (data first_run);
  Ok (point_a, point_b).

(** [all_lats] and [all_lons] of [plot_combined_navigation]. *)
Definition all_lats (all_runs_data : list Run) : Numpy.array :=
  flat_map (fun run_data => map lat (data run_data)) all_runs_data.

Definition all_lons (all_runs_data : list Run) : Numpy.array :=
  flat_map (fun run_data => map lon (data run_data)) all_runs_data.

Definition output_dir : string := "line_plots".
Definition output_file : string := output_dir +:+ "/Combined_All_Runs.png".

Section Main.
(** [plot_combined_navigation]: the figure of all runs. *)
Variable plot_combined_navigation : list Run -> result unit.

Fixpoint process_logs (fs : directory) (log_files : list string)
    (all_runs_data : list Run) : io (list Run) :=
  match log_files with
  | [] => mret all_runs_data
  | log_file :: rest =>
      emit (Print ("Loading: " +:+ log_file));;
      data ← lift (parse_navigation_log fs log_file);
      if length data <? 2 then
        emit (Print ("  Insufficient data in " +:+ log_file));;
        process_logs fs rest all_runs_data
      else
        process_logs fs rest
          (all_runs_data ++ [mkRun (stem log_file) data])
  end.

Definition main (fs : directory) : io unit :=
  emit (Mkdir output_dir);;
  let log_files := glob_sorted fs in
  match log_files with
  | [] => emit (Print "No navigation log files found!")
  | _ :: _ =>
      emit (Print ("Found " +:+ PyStr.of_nat (length log_files)
                   +:+ " navigation log files"));;
      all_runs_data ← process_logs fs log_files [];
      match all_runs_data with
      | _ :: _ =>
          emit (Print (NL +:+ "Generating combined plot..."));;
          lift (plot_combined_navigation all_runs_data);;
          (if bool_decide (is_Some (fs !! output_file)) then
             emit (Unlink output_file);;
             emit (Print "Deleted old plot file")
           else mret tt);;
          emit (SaveFig output_file);;
          emit (Print ("Saved combined plot: " +:+ output_file));;
          emit (PrintFileSize output_file);;
          emit (Print (NL +:+ "Combined plot saved to: "
                       +:+ output_dir +:+ "/"))
      | [] => emit (Print "No valid data found for plotting.")
      end
  end.
End Main.

End LineCreator.

(** ** Vocabulary of the properties *)

(** The line opens the data section: it begins with the date token. *)
Definition is_date_line (line : string) : bool :=
  PyStr.startswith line "2025-".

(** The data section: the first date line and all lines after it. *)
Fixpoint data_section (lines : list string) : list string :=
  match lines with
  | [] => []
  | line :: rest =>
      if is_date_line line then lines else data_section rest
  end.

Definition fields (line : string) : list string := PyStr.split line TAB.

Definition is_blank (line : string) : bool :=
  negb (PyStr.truthy (PyStr.strip line)).

(** A row: a line that is not blank and has at least 4 fields. *)
Definition is_row (line : string) : bool :=
  negb (is_blank line) && (4 <=? length (fields line)).

Definition rows (lines : list string) : list string :=
  filter (fun line => is_row line = true) (data_section lines).

(** Field [i] of the line reads as a float. *)
Definition field_parses (line : string) (i : nat) : Prop :=
  exists (p : string) (x : Float64.float),
    fields line !! i = Some p /\ PyStr.float p = Some x.

(** Field [i] of the line is there and does not read as a float. *)
Definition field_fails (line : string) (i : nat) : Prop :=
  exists p : string, fields line !! i = Some p /\ PyStr.float p = None.

(** The sample of one row: fields 1, 2 and 3, read in this order. *)
Definition sample_of_line (line : string) : result Sample :=
  xte ← getitem (fields line) 1 ≫= py_float;
  lat ← getitem (fields line) 2 ≫= py_float;
  lon ← getitem (fields line) 3 ≫= py_float;
  Ok (mkSample xte lat lon).

(** Left to right, stopping at the first exception. *)
Fixpoint mapM {A B} (f : A -> result B) (l : list A) : result (list B) :=
  match l with
  | [] => Ok []
  | x :: l' => y ← f x; ys ← mapM f l'; Ok (y :: ys)
  end.

(** The six figures that lines 130 to 135 of [histogramAnalysis.py]
    print, for the array [all_xtes]. *)
Definition statistics (all_xtes : Numpy.array)
  : nat * Float64.float * Float64.float * Float64.float
    * result Float64.float * Float64.float :=
  (length all_xtes,
   Numpy.np_mean all_xtes,
   Numpy.np_mean (Numpy.np_abs all_xtes),
   Numpy.np_std all_xtes,
   Numpy.np_max (Numpy.np_abs all_xtes),
   Numpy.np_percentile (Numpy.np_abs all_xtes) 95).

(** What the loop over [log_files] does for one file that parses: the
    run it adds to [all_runs_data], if any, and the lines it prints. *)
Definition usable_run (fs : directory) (log_file : string) : list Run :=
  match HistogramAnalysis.parse_navigation_log fs log_file with
  | Ok data =>
      if length data <? 2 then [] else [mkRun (stem log_file) data]
  | Raise _ => []
  end.

Definition progress (fs : directory) (log_file : string) : list effect :=
  Print ("Loading: " +:+ log_file) ::
  match HistogramAnalysis.parse_navigation_log fs log_file with
  | Ok data =>
      if length data <? 2
      then [Print ("  Insufficient data in " +:+ log_file)] else []
  | Raise _ => []
  end.

(** The array [all_xtes] that [main] gets back from
    [plot_combined_histogram]: the error values of the runs it kept, in
    the order of the sorted file names. *)
Definition kept_xtes (fs : directory) : Numpy.array :=
  flat_map (fun run_data => map xte (data run_data))
    (flat_map (usable_run fs) (glob_sorted fs)).

(** The integers [lo], [lo + 1], ..., [lo + n - 1]. *)
Definition Zrange (lo : Z) (n : nat) : list Z :=
  map (fun i => (lo + Z.of_nat i)%Z) (seq 0 n).

(** A float's place in NumPy's sorting order, as a triple compared from
    the left: NaN, then +inf, the positive floats by exponent and
    mantissa, the zeros, the negative floats, and -inf. *)
Definition sort_key (x : Float64.float) : Z * Z * Z :=
  match x with
  | S754_nan => (3, 0, 0)
  | S754_infinity false => (2, 0, 0)
  | S754_finite false m e => (1, e, Z.pos m)
  | S754_zero _ => (0, 0, 0)
  | S754_finite true m e => (-1, - e, Z.neg m)
  | S754_infinity true => (-2, 0, 0)
  end%Z.

Definition key_lt (a b : Z * Z * Z) : Prop :=
  (a.1.1 < b.1.1 \/
   a.1.1 = b.1.1 /\ (a.1.2 < b.1.2 \/ a.1.2 = b.1.2 /\ a.2 < b.2))%Z.

(** The float is in the form binary64 stores: the mantissa has the size
    its exponent asks for, and the exponent is in range. *)
Definition valid64 (x : Float64.float) : Prop :=
  valid_binary Float64.prec Float64.emax x = true.

(** *** Sample logs *)

Fixpoint join_tab (cells : list string) : string :=
  match cells with
  | [] => EmptyString
  | [c] => c
  | c :: cs => c +:+ String TAB (join_tab cs)
  end.

(** One line of a log: the cells, tab-separated, and a newline. *)
Definition tsv (cells : list string) : string := join_tab cells +:+ NL.

Definition log_header : string :=
  "Navigation Log" +:+ NL +:+ tsv ["Time"; "XTE"; "Lat"; "Lon"].

(** A log whose only row has an infinite error field. *)
Definition log_inf : string :=
  log_header +:+ tsv ["2025-03-01 10:00:00"; "inf"; "45.0"; "-93.0"].

(** A log with two good rows, a blank line and a short line. *)
Definition log_good : string :=
  log_header
  +:+ tsv ["2025-03-01 10:00:00"; "0.02"; "45.0"; "-93.0"; "7"]
  +:+ NL
  +:+ tsv ["2025-03-01 10:00:01"; "-0.01"]
  +:+ tsv ["2025-03-01 10:00:02"; "-0.03"; "45.1"; "-93.0"; "7"].

(** A log whose second row has a latitude that is no number. *)
Definition log_bad_field : string :=
  log_header
  +:+ tsv ["2025-03-01 10:00:00"; "0.02"; "45.0"; "-93.0"]
  +:+ tsv ["2025-03-01 10:00:01"; "0.01"; "n/a"; "-93.0"]
  +:+ tsv ["2025-03-01 10:00:02"; "0.03"; "45.1"; "-93.0"].

(** A log with a single row. *)
Definition log_one_row : string :=
  log_header +:+ tsv ["2025-03-01 10:00:00"; "0.02"; "45.0"; "-93.0"].

(** A folder with a log of one row, a log of two rows and a file that
    is no log. *)
Definition sample_dir : directory :=
  <["NavigationLog_2.txt" := log_good]>
    (<["NavigationLog_1.txt" := log_one_row]> {["notes.txt" := "todo"]}).

(** A folder with one log, of the two error values -1 m and 1 m. *)
Definition log_unit : string :=
  log_header
  +:+ tsv ["2025-03-01 10:00:00"; "-1"; "45.0"; "-93.0"]
  +:+ tsv ["2025-03-01 10:00:01"; "1"; "45.0"; "-93.0"].

Definition unit_dir : directory := {["NavigationLog_1.txt" := log_unit]}.

(** The numbers 0, 1, ..., 99 in another order, [37 * i mod 100], every
    other one with a minus sign. *)
Definition scrambled (i : nat) : string :=
  (if Nat.odd i then "-" else "") +:+ PyStr.of_nat (37 * i mod 100).

Definition log_scrambled (from count : nat) : string :=
  log_header
  +:+ fold_right
        (fun i rest =>
           tsv ["2025-03-01 10:00:00"; scrambled i; "45.0"; "-93.0"]
           +:+ rest)
        "" (seq from count).

(** A folder with two logs that hold these 100 error values, 40 in the
    first and 60 in the second. *)
Definition hundred_dir : directory :=
  <["NavigationLog_2.txt" := log_scrambled 40 60]>
    {["NavigationLog_1.txt" := log_scrambled 0 40]}.

(** The floats 0.0, 1.0, ..., 99.0. *)
Definition zero_to_99 : Numpy.array :=
  map (fun n => Float64.of_Z (Z.of_nat n)) (seq 0 100).

(** Three error values, 10 cm, 30 cm and 15 cm, read in two orders. *)
Definition readings : Numpy.array :=
  omap PyStr.float ["0.1"; "0.3"; "0.15"].

Definition readings_rotated : Numpy.array :=
  omap PyStr.float ["0.3"; "0.15"; "0.1"].

(** * Properties *)

Lemma result_bind_ok {A B} (f : A -> result B) (a : A) :
  Ok a ≫= f = f a.
Proof. reflexivity. Qed.

Lemma mapM_app {A B} (f : A -> result B) (l1 l2 : list A) :
  mapM f (l1 ++ l2) =
  (ys1 ← mapM f l1; ys2 ← mapM f l2; Ok (ys1 ++ ys2)).
Proof.
  induction l1 as [|x l1 IH]; simpl.
  - destruct (mapM f l2); reflexivity.
  - destruct (f x) as [y|e]; simpl; [|reflexivity].
    rewrite IH. destruct (mapM f l1) as [ys1|e]; simpl; [|reflexivity].
    destruct (mapM f l2); reflexivity.
Qed.

Lemma is_row_truthy (line : string) :
  is_row line =
  PyStr.truthy (PyStr.strip line) && (4 <=? length (fields line)).
Proof. unfold is_row, is_blank. by rewrite negb_involutive. Qed.

Lemma filter_rows_cons (line : string) (rest : list string) :
  filter (fun l => is_row l = true) (line :: rest) =
  if is_row line then line :: filter (fun l => is_row l = true) rest
  else filter (fun l => is_row l = true) rest.
Proof.
  rewrite filter_cons. destruct (is_row line); by case_decide.
Qed.

Section ParseLines.
Import HistogramAnalysis.

(** One turn of the loop. *)
Lemma parse_lines_step (line : string) (rest : list string)
    (data_start : bool) (data : list Sample) :
  parse_lines (line :: rest) data_start data =
  let started := is_date_line line || data_start in
  if started && is_row line then
    s ← sample_of_line line; parse_lines rest started (data ++ [s])
  else parse_lines rest started data.
Proof.
  cbn [parse_lines]. fold (is_date_line line). fold (fields line).
  rewrite is_row_truthy. unfold sample_of_line.
  replace (if is_date_line line then true else data_start)
    with (is_date_line line || data_start)
    by (by destruct (is_date_line line)).
  cbv zeta.
  destruct (is_date_line line || data_start); cbn [andb]; [|done].
  destruct (PyStr.truthy (PyStr.strip line)); cbn [andb]; [|done].
  destruct (4 <=? length (fields line)); [|done].
  destruct (getitem (fields line) 1 ≫= py_float); [|done].
  destruct (getitem (fields line) 2 ≫= py_float); [|done].
  destruct (getitem (fields line) 3 ≫= py_float); done.
Qed.

(** The loop is a filter followed by a map: the rows of the part of the
    file it has switched on for, each turned into its sample. *)
Lemma parse_lines_rows (lines : list string) (data_start : bool)
    (data : list Sample) :
  parse_lines lines data_start data =
  (new ← mapM sample_of_line
           (filter (fun line => is_row line = true)
              (if data_start then lines else data_section lines));
   Ok (data ++ new)).
Proof.
  revert data_start data.
  induction lines as [|line rest IH]; intros data_start data.
  - destruct data_start; simpl; by rewrite app_nil_r.
  - rewrite parse_lines_step. cbv zeta. cbn [data_section].
    destruct (is_date_line line), data_start; cbn [orb andb];
      rewrite ?filter_rows_cons;
      try (destruct (is_row line); cbn [mapM];
           [destruct (sample_of_line line); [|done]; rewrite result_bind_ok|];
           rewrite IH; destruct (mapM _ _); cbn; by rewrite <- ?app_assoc).
    by rewrite IH.
Qed.
End ParseLines.

(** The two scripts carry the same parser. *)
Lemma parse_lines_agree (lines : list string) (data_start : bool)
    (data : list Sample) :
  LineCreator.parse_lines lines data_start data =
  HistogramAnalysis.parse_lines lines data_start data.
Proof.
  revert data_start data.
  induction lines as [|line rest IH]; intros data_start data; [done|].
  cbn [LineCreator.parse_lines HistogramAnalysis.parse_lines].
  destruct (_ && _); [|apply IH].
  destruct (4 <=? _); [|apply IH].
  destruct (getitem _ 1 ≫= py_float); [|done].
  destruct (getitem _ 2 ≫= py_float); [|done].
  destruct (getitem _ 3 ≫= py_float); [|done].
  rewrite !result_bind_ok. apply IH.
Qed.

Lemma parse_text_agree (text : string) :
  LineCreator.parse_text text = HistogramAnalysis.parse_text text.
Proof. apply parse_lines_agree. Qed.

Lemma parse_navigation_log_agree (fs : directory) (filepath : string) :
  LineCreator.parse_navigation_log fs filepath =
  HistogramAnalysis.parse_navigation_log fs filepath.
Proof.
  unfold HistogramAnalysis.parse_navigation_log,
    LineCreator.parse_navigation_log.
  destruct (fs !! filepath) as [text|]; [|done].
  apply parse_text_agree.
Qed.

Lemma parse_text_rows (text : string) :
  HistogramAnalysis.parse_text text =
  mapM sample_of_line (rows (readlines text)).
Proof.
  unfold HistogramAnalysis.parse_text. rewrite parse_lines_rows.
  fold (rows (readlines text)). by destruct (mapM _ _).
Qed.

(** Header lines go, and the section starts at the date line itself. *)
Lemma data_section_header (pre : list string) (marker : string)
    (post : list string) :
  Forall (fun line => is_date_line line = false) pre ->
  is_date_line marker = true ->
  data_section (pre ++ marker :: post) = marker :: post.
Proof.
  intros Hpre Hm. induction Hpre as [|line pre Hl _ IH]; simpl.
  - by rewrite Hm.
  - by rewrite Hl.
Qed.

(** Once the section has started, later lines stay in it. *)
Lemma data_section_app (pre post : list string) :
  Exists (fun line => is_date_line line = true) pre ->
  data_section (pre ++ post) = data_section pre ++ post.
Proof.
  induction pre as [|line pre IH]; intros Hex.
  - by apply Exists_nil in Hex.
  - simpl. destruct (is_date_line line) eqn:Hl; [done|].
    apply Exists_cons in Hex as [Hex|Hex]; [congruence|by apply IH].
Qed.

(** On a row, fields 1 to 3 exist, so only [float] can raise. *)
Lemma row_has_fields (line : string) (i : nat) :
  is_row line = true -> i < 4 -> exists p, fields line !! i = Some p.
Proof.
  unfold is_row. intros [_ Hlen%Nat.leb_le]%andb_true_iff Hi.
  apply lookup_lt_is_Some_2. lia.
Qed.

Lemma field_of_row (line : string) (i : nat) :
  is_row line = true -> i < 4 ->
  (exists x, getitem (fields line) i ≫= py_float = Ok x) \/
  getitem (fields line) i ≫= py_float = Raise ValueError.
Proof.
  intros Hrow Hi. destruct (row_has_fields line i Hrow Hi) as [p Hp].
  unfold getitem, py_float. rewrite Hp, result_bind_ok.
  destruct (PyStr.float p); [left; by eexists|by right].
Qed.

Lemma field_parses_ok (line : string) (i : nat) :
  field_parses line i ->
  exists x, getitem (fields line) i ≫= py_float = Ok x.
Proof.
  intros (p & x & Hp & Hf). exists x.
  unfold getitem, py_float. by rewrite Hp, result_bind_ok, Hf.
Qed.

Lemma field_fails_raises (line : string) (i : nat) :
  field_fails line i ->
  getitem (fields line) i ≫= py_float = Raise ValueError.
Proof.
  intros (p & Hp & Hf).
  unfold getitem, py_float. by rewrite Hp, result_bind_ok, Hf.
Qed.

Lemma sample_of_row (line : string) :
  is_row line = true ->
  (exists s, sample_of_line line = Ok s) \/
  sample_of_line line = Raise ValueError.
Proof.
  intros Hrow. unfold sample_of_line.
  destruct (field_of_row line 1 Hrow) as [[x1 ->]| ->]; [lia| |by right].
  destruct (field_of_row line 2 Hrow) as [[x2 ->]| ->]; [lia| |by right].
  destruct (field_of_row line 3 Hrow) as [[x3 ->]| ->]; [lia| |by right].
  left. by eexists.
Qed.

Lemma sample_of_row_ok (line : string) :
  field_parses line 1 -> field_parses line 2 -> field_parses line 3 ->
  exists s, sample_of_line line = Ok s.
Proof.
  intros [x1 H1]%field_parses_ok [x2 H2]%field_parses_ok
    [x3 H3]%field_parses_ok.
  unfold sample_of_line. rewrite H1, H2, H3. by eexists.
Qed.

Lemma sample_of_row_fails (line : string) :
  is_row line = true ->
  field_fails line 1 \/ field_fails line 2 \/ field_fails line 3 ->
  sample_of_line line = Raise ValueError.
Proof.
  intros Hrow Hbad. unfold sample_of_line.
  destruct (field_of_row line 1 Hrow) as [[x1 H1]|H1]; [lia| |by rewrite H1].
  destruct (field_of_row line 2 Hrow) as [[x2 H2]|H2];
    [lia| |by rewrite H1, H2].
  destruct Hbad as [Hf|[Hf|Hf]]; apply field_fails_raises in Hf.
  - congruence.
  - congruence.
  - by rewrite H1, H2, Hf.
Qed.

Lemma mapM_rows_outcome (lines : list string) :
  Forall (fun line => is_row line = true) lines ->
  (exists data, mapM sample_of_line lines = Ok data) \/
  mapM sample_of_line lines = Raise ValueError.
Proof.
  induction 1 as [|line lines Hrow _ IH]; [left; by eexists|].
  cbn [mapM].
  destruct (sample_of_row line Hrow) as [[s ->]| ->]; [|by right].
  rewrite result_bind_ok.
  destruct IH as [[data ->]| ->]; [left; by eexists|by right].
Qed.

Lemma mapM_raises_at (pre : list string) (bad : string)
    (post : list string) :
  Forall (fun line => is_row line = true) pre ->
  sample_of_line bad = Raise ValueError ->
  mapM sample_of_line (pre ++ bad :: post) = Raise ValueError.
Proof.
  intros Hpre Hbad. rewrite mapM_app.
  destruct (mapM_rows_outcome pre Hpre) as [[data ->]| ->]; [|done].
  rewrite result_bind_ok. cbn [mapM]. by rewrite Hbad.
Qed.

Lemma filter_rows_Forall (lines : list string) :
  Forall (fun line => is_row line = true)
    (filter (fun line => is_row line = true) lines).
Proof. apply Forall_forall. by intros line [? _]%list_elem_of_filter. Qed.

(** Each sample holds what [float] returns on fields 1 to 3 of its row. *)
Lemma mapM_samples (lines : list string) (data : list Sample) :
  mapM sample_of_line lines = Ok data ->
  Forall2 (fun line s =>
             getitem (fields line) 1 ≫= py_float = Ok (xte s) /\
             getitem (fields line) 2 ≫= py_float = Ok (lat s) /\
             getitem (fields line) 3 ≫= py_float = Ok (lon s))
    lines data.
Proof.
  revert data. induction lines as [|line lines IH]; intros data H.
  - inversion H. constructor.
  - cbn [mapM] in H. destruct (sample_of_line line) as [s|] eqn:Hs; [|done].
    rewrite result_bind_ok in H.
    destruct (mapM sample_of_line lines) as [ss|]; [|done].
    inversion H; subst. constructor; [|by apply IH].
    revert Hs. unfold sample_of_line.
    destruct (getitem _ 1 ≫= py_float); [|done].
    destruct (getitem _ 2 ≫= py_float); [|done].
    destruct (getitem _ 3 ≫= py_float); [|done].
    rewrite !result_bind_ok. by intros [= <-].
Qed.

Lemma parse_navigation_log_text (fs : directory) (filepath text : string) :
  fs !! filepath = Some text ->
  HistogramAnalysis.parse_navigation_log fs filepath =
  mapM sample_of_line (rows (readlines text)).
Proof.
  intros Hfs. unfold HistogramAnalysis.parse_navigation_log.
  rewrite Hfs. apply parse_text_rows.
Qed.

(** ** The parser *)

(** C10. [parse_navigation_log] of [histogramAnalysis.py] and
    [parse_navigation_log] of [lineCreator.py] are the same function: on
    every directory and path they return the same samples in the same
    order, or raise the same exception. *)
Theorem parse_navigation_log_same (fs : directory) (filepath : string) :
  HistogramAnalysis.parse_navigation_log fs filepath =
  LineCreator.parse_navigation_log fs filepath.
Proof. symmetry. apply parse_navigation_log_agree. Qed.

(** C4, as stated, fails: were the date line only a marker, with rows
    taken from the lines after it, a file whose only date line is its one
    row would yield nothing. *)
Lemma date_line_is_a_row :
  ~ (forall (pre : list string) (marker : string) (post : list string),
       Forall (fun line => is_date_line line = false) pre ->
       is_date_line marker = true ->
       HistogramAnalysis.parse_lines (pre ++ marker :: post) false [] =
       mapM sample_of_line (filter (fun line => is_row line = true) post)).
Proof.
  intros H.
  specialize (H ["Navigation Log" +:+ NL; tsv ["Time"; "XTE"; "Lat"; "Lon"]]
                (tsv ["2025-03-01 10:00:00"; "0.02"; "45.0"; "-93.0"]) []).
  assert (HistogramAnalysis.parse_lines (readlines log_one_row) false []
          = Ok []) as Hc.
  { apply H; [by repeat constructor|reflexivity]. }
  vm_compute in Hc. discriminate Hc.
Qed.

(** C4, amended. [parse_navigation_log] discards every line before the
    first line that begins with "2025-", and parses data rows from that
    line and the lines after it: the date line is itself the first
    candidate row. Both scripts do so. *)
Theorem parse_from_date_line (fs : directory) (filepath text : string)
    (pre : list string) (marker : string) (post : list string) :
  fs !! filepath = Some text ->
  readlines text = pre ++ marker :: post ->
  Forall (fun line => is_date_line line = false) pre ->
  is_date_line marker = true ->
  HistogramAnalysis.parse_navigation_log fs filepath =
    mapM sample_of_line
      (filter (fun line => is_row line = true) (marker :: post)) /\
  LineCreator.parse_navigation_log fs filepath =
    mapM sample_of_line
      (filter (fun line => is_row line = true) (marker :: post)).
Proof.
  intros Hfs Hlines Hpre Hm.
  assert (HistogramAnalysis.parse_navigation_log fs filepath =
          mapM sample_of_line
            (filter (fun line => is_row line = true) (marker :: post))) as E.
  { rewrite (parse_navigation_log_text fs filepath text Hfs).
    unfold rows. by rewrite Hlines, data_section_header. }
  split; [done|]. rewrite <- E. apply parse_navigation_log_agree.
Qed.

Lemma parse_from_date_line_witness :
  HistogramAnalysis.parse_navigation_log
    {["NavigationLog_1.txt" := log_one_row]} "NavigationLog_1.txt" =
    mapM sample_of_line
      (filter (fun line => is_row line = true)
         [tsv ["2025-03-01 10:00:00"; "0.02"; "45.0"; "-93.0"]]) /\
  LineCreator.parse_navigation_log
    {["NavigationLog_1.txt" := log_one_row]} "NavigationLog_1.txt" =
    mapM sample_of_line
      (filter (fun line => is_row line = true)
         [tsv ["2025-03-01 10:00:00"; "0.02"; "45.0"; "-93.0"]]).
Proof.
  apply (parse_from_date_line _ _ log_one_row
           ["Navigation Log" +:+ NL; tsv ["Time"; "XTE"; "Lat"; "Lon"]]).
  - reflexivity.
  - reflexivity.
  - repeat constructor.
  - reflexivity.
Defined.

(** C3. On a well-formed file, one in which every line of the data
    section with at least 4 tab-separated fields has fields 1, 2 and 3
    that read as floats, [parse_navigation_log] returns, and returns as
    many samples as the data section has non-blank lines with at least 4
    fields; lines with fewer fields are passed over. *)
Theorem parse_length (fs : directory) (filepath text : string) :
  fs !! filepath = Some text ->
  (forall line, line ∈ data_section (readlines text) ->
     4 <= length (fields line) ->
     field_parses line 1 /\ field_parses line 2 /\ field_parses line 3) ->
  exists data,
    HistogramAnalysis.parse_navigation_log fs filepath = Ok data /\
    length data =
    length (filter (fun line => is_blank line = false
                                /\ 4 <= length (fields line))
              (data_section (readlines text))).
Proof.
  intros Hfs Hwf.
  rewrite (parse_navigation_log_text fs filepath text Hfs).
  unfold rows. revert Hwf.
  generalize (data_section (readlines text)) as lines.
  induction lines as [|line lines IH]; intros Hwf; [by exists []|].
  destruct IH as (data & Hdata & Hlen).
  { intros l Hl. apply Hwf. by right. }
  rewrite filter_rows_cons, filter_cons. unfold is_row at 1.
  destruct (is_blank line); cbn [negb andb].
  { exists data. split; [done|]. case_decide as Hc; [by destruct Hc|done]. }
  destruct (Nat.leb_spec 4 (length (fields line))) as [Hge|Hlt].
  - destruct (Hwf line) as (F1 & F2 & F3); [by left|done|].
    destruct (sample_of_row_ok line F1 F2 F3) as [s Hs].
    exists (s :: data). cbn [mapM]. rewrite Hs, Hdata. split; [done|].
    case_decide as Hc; [|by destruct Hc]. simpl. by f_equal.
  - exists data. split; [done|]. case_decide as Hc; [lia|done].
Qed.

Lemma parse_length_witness :
  exists data,
    HistogramAnalysis.parse_navigation_log
      {["NavigationLog_1.txt" := log_good]} "NavigationLog_1.txt" = Ok data /\
    length data =
    length (filter (fun line => is_blank line = false
                                /\ 4 <= length (fields line))
              (data_section (readlines log_good))).
Proof.
  apply (parse_length _ _ log_good); [reflexivity|].
  intros line Hin Hlen.
  let l := eval vm_compute in (data_section (readlines log_good)) in
  change (line ∈ l) in Hin.
  repeat match type of Hin with
         | _ ∈ _ :: _ => apply elem_of_cons in Hin as [->|Hin]
         end;
    try (repeat split; eexists _, _; split; vm_compute; reflexivity);
    try (vm_compute in Hlen; lia).
  by apply elem_of_nil in Hin.
Defined.

(** C2. When the data section of a file has a non-blank line with at
    least 4 tab-separated fields of which field 1, 2 or 3 does not read
    as a float, [parse_navigation_log] raises [ValueError]: it returns no
    sample, neither for that line nor for any other, whatever follows
    the line. *)
Theorem parse_raises_on_bad_field (fs : directory) (filepath text : string)
    (pre : list string) (bad : string) (post : list string) :
  fs !! filepath = Some text ->
  readlines text = pre ++ bad :: post ->
  Exists (fun line => is_date_line line = true) (pre ++ [bad]) ->
  is_blank bad = false ->
  4 <= length (fields bad) ->
  field_fails bad 1 \/ field_fails bad 2 \/ field_fails bad 3 ->
  HistogramAnalysis.parse_navigation_log fs filepath = Raise ValueError.
Proof.
  intros Hfs Hlines Hsec Hnb Hlen Hbad.
  rewrite (parse_navigation_log_text fs filepath text Hfs).
  unfold rows. rewrite Hlines.
  replace (pre ++ bad :: post) with ((pre ++ [bad]) ++ post)
    by (by rewrite <- app_assoc).
  rewrite (data_section_app _ post Hsec), filter_app.
  assert (is_row bad = true) as Hrow.
  { unfold is_row. rewrite Hnb. by apply Nat.leb_le in Hlen as ->. }
  assert (exists sec, data_section (pre ++ [bad]) = sec ++ [bad])
    as [sec ->].
  { clear -Hsec. induction pre as [|line pre IH]; simpl in *.
    - exists []. apply Exists_cons in Hsec as [->|H]; [done|].
      by apply Exists_nil in H.
    - destruct (is_date_line line) eqn:Hl.
      + by exists (line :: pre).
      + apply IH. apply Exists_cons in Hsec as [?|?]; [congruence|done]. }
  rewrite filter_app, (filter_rows_cons bad []), Hrow, <- app_assoc.
  apply mapM_raises_at; [apply filter_rows_Forall|].
  by apply sample_of_row_fails.
Qed.

Lemma parse_raises_on_bad_field_witness :
  HistogramAnalysis.parse_navigation_log
    {["NavigationLog_1.txt" := log_bad_field]} "NavigationLog_1.txt"
  = Raise ValueError.
Proof.
  apply (parse_raises_on_bad_field _ _ log_bad_field
           ["Navigation Log" +:+ NL; tsv ["Time"; "XTE"; "Lat"; "Lon"];
            tsv ["2025-03-01 10:00:00"; "0.02"; "45.0"; "-93.0"]]
           (tsv ["2025-03-01 10:00:01"; "0.01"; "n/a"; "-93.0"])
           [tsv ["2025-03-01 10:00:02"; "0.03"; "45.1"; "-93.0"]]).
  - reflexivity.
  - reflexivity.
  - do 2 apply Exists_cons_tl. apply Exists_cons_hd. reflexivity.
  - reflexivity.
  - vm_compute. lia.
  - right. left. exists "n/a". split; reflexivity.
Defined.

(** C1, as stated, fails: a row whose error field reads [inf] is not
    passed over; it yields a sample whose [xte] is infinite. *)
Lemma nonfinite_xte_is_kept :
  ~ (forall (fs : directory) (filepath : string) (data : list Sample),
       HistogramAnalysis.parse_navigation_log fs filepath = Ok data ->
       Forall (fun s => Float64.isfinite (xte s) = true) data).
Proof.
  intros H.
  specialize (H {["NavigationLog_1.txt" := log_inf]} "NavigationLog_1.txt"
                [mkSample Float64.inf
                   (Float64.of_Z 45) (Float64.opp (Float64.of_Z 93))]).
  assert (Forall (fun s => Float64.isfinite (xte s) = true)
            [mkSample Float64.inf
               (Float64.of_Z 45) (Float64.opp (Float64.of_Z 93))]) as Hc.
  { apply H. vm_compute. reflexivity. }
  apply Forall_cons in Hc as [Hc _]. vm_compute in Hc. discriminate Hc.
Qed.

(** C1, amended. Every sample that [parse_navigation_log] returns holds,
    as its [xte], [lat] and [lon], exactly what [float] returns on fields
    1, 2 and 3 of its row, finite or not: the rows of the data section
    and the samples correspond one to one, in order, and a row whose
    error field reads [inf], [-inf] or [nan] contributes a sample like
    any other. Both scripts do so. *)
Theorem parse_samples_are_float_of_fields (fs : directory)
    (filepath text : string) (data : list Sample) :
  fs !! filepath = Some text ->
  HistogramAnalysis.parse_navigation_log fs filepath = Ok data ->
  Forall2 (fun line s =>
             getitem (fields line) 1 ≫= py_float = Ok (xte s) /\
             getitem (fields line) 2 ≫= py_float = Ok (lat s) /\
             getitem (fields line) 3 ≫= py_float = Ok (lon s))
    (rows (readlines text)) data /\
  LineCreator.parse_navigation_log fs filepath = Ok data.
Proof.
  intros Hfs Hdata. split.
  - rewrite (parse_navigation_log_text fs filepath text Hfs) in Hdata.
    by apply mapM_samples.
  - rewrite <- Hdata. apply parse_navigation_log_agree.
Qed.

Lemma parse_samples_are_float_of_fields_witness :
  Forall2 (fun line s =>
             getitem (fields line) 1 ≫= py_float = Ok (xte s) /\
             getitem (fields line) 2 ≫= py_float = Ok (lat s) /\
             getitem (fields line) 3 ≫= py_float = Ok (lon s))
    (rows (readlines log_inf))
    [mkSample Float64.inf (Float64.of_Z 45) (Float64.opp (Float64.of_Z 93))]
  /\
  LineCreator.parse_navigation_log
    {["NavigationLog_1.txt" := log_inf]} "NavigationLog_1.txt"
  = Ok [mkSample Float64.inf
          (Float64.of_Z 45) (Float64.opp (Float64.of_Z 93))].
Proof.
  apply (parse_samples_are_float_of_fields
           {["NavigationLog_1.txt" := log_inf]} "NavigationLog_1.txt").
  - reflexivity.
  - vm_compute. reflexivity.
Defined.


(** ** The loop over the log files *)

Lemma process_logs_agree (fs : directory) (log_files : list string)
    (all_runs_data : list Run) (tr : list effect) :
  LineCreator.process_logs fs log_files all_runs_data tr =
  HistogramAnalysis.process_logs fs log_files all_runs_data tr.
Proof.
  revert all_runs_data tr.
  induction log_files as [|f rest IH]; intros runs tr; [done|].
  cbn [LineCreator.process_logs HistogramAnalysis.process_logs].
  unfold mbind, io_bind, emit, lift.
  rewrite parse_navigation_log_agree.
  destruct (HistogramAnalysis.parse_navigation_log fs f) as [d|e]; [|done].
  destruct (length d <? 2); apply IH.
Qed.

Lemma process_logs_cons (fs : directory) (f : string) (rest : list string)
    (runs : list Run) (tr : list effect) :
  HistogramAnalysis.process_logs fs (f :: rest) runs tr =
  match HistogramAnalysis.parse_navigation_log fs f with
  | Ok _ =>
      HistogramAnalysis.process_logs fs rest (runs ++ usable_run fs f)
        (tr ++ progress fs f)
  | Raise e => (tr ++ progress fs f, Raise e)
  end.
Proof.
  cbn [HistogramAnalysis.process_logs].
  unfold mbind, io_bind, emit, lift, usable_run, progress.
  destruct (HistogramAnalysis.parse_navigation_log fs f) as [d|e]; [|done].
  destruct (length d <? 2).
  - by rewrite app_nil_r, <- app_assoc.
  - done.
Qed.

(** When every file parses, the loop runs to its end. *)
Lemma process_logs_all_parse (fs : directory) (log_files : list string)
    (runs : list Run) (tr : list effect) :
  (forall f, f ∈ log_files ->
     exists d, HistogramAnalysis.parse_navigation_log fs f = Ok d) ->
  HistogramAnalysis.process_logs fs log_files runs tr =
  (tr ++ flat_map (progress fs) log_files,
   Ok (runs ++ flat_map (usable_run fs) log_files)).
Proof.
  revert runs tr. induction log_files as [|f rest IH]; intros runs tr Hall.
  - cbn. by rewrite !app_nil_r.
  - rewrite process_logs_cons.
    destruct (Hall f) as [d Hd]; [by left|]. rewrite Hd.
    rewrite IH by (intros g Hg; apply Hall; by right).
    cbn [flat_map]. by rewrite <- !app_assoc.
Qed.

Lemma elem_of_flat_map {A B} (f : A -> list B) (l : list A) (y : B) :
  y ∈ flat_map f l <-> exists x, x ∈ l /\ y ∈ f x.
Proof.
  induction l as [|x l IH]; cbn [flat_map].
  - split; [by intros ?%elem_of_nil|by intros (? & ?%elem_of_nil & _)].
  - rewrite elem_of_app, IH. split.
    + intros [Hy|(z & Hz & Hy)]; [exists x|exists z]; split;
        auto using list_elem_of_here, list_elem_of_further.
    + intros (z & [->|Hz]%elem_of_cons & Hy); [by left|right; by exists z].
Qed.

(** C5. For the log files the loop goes through, a run is left out of
    [all_runs_data] exactly when its parse gave fewer than 2 samples, and
    then, and only then, the line "Insufficient data in ..." is printed
    for it; the loop goes on to the next file. A run of 1 sample is thus
    left out and a run of 2 samples is kept. Both scripts do so. *)
Theorem short_runs_are_excluded (fs : directory) (log_files : list string)
    (tr : list effect) :
  (forall f, f ∈ log_files ->
     exists d, HistogramAnalysis.parse_navigation_log fs f = Ok d) ->
  exists (tr' : list effect) (all_runs_data : list Run),
    HistogramAnalysis.process_logs fs log_files [] tr
      = (tr ++ tr', Ok all_runs_data) /\
    LineCreator.process_logs fs log_files [] tr
      = (tr ++ tr', Ok all_runs_data) /\
    forall f d,
      f ∈ log_files ->
      HistogramAnalysis.parse_navigation_log fs f = Ok d ->
      (mkRun (stem f) d ∈ all_runs_data <-> 2 <= length d) /\
      (Print ("  Insufficient data in " +:+ f) ∈ tr' <-> length d < 2).
Proof.
  intros Hall.
  exists (flat_map (progress fs) log_files),
    (flat_map (usable_run fs) log_files).
  split; [by apply process_logs_all_parse|].
  split; [etrans; [apply process_logs_agree|by apply process_logs_all_parse]|].
  intros f d Hf Hd. split.
  - rewrite elem_of_flat_map. split.
    + intros (g & _ & Hg). unfold usable_run in Hg.
      destruct (HistogramAnalysis.parse_navigation_log fs g) as [d'|];
        [|by apply elem_of_nil in Hg].
      destruct (Nat.ltb_spec (length d') 2); [by apply elem_of_nil in Hg|].
      apply list_elem_of_singleton in Hg. by inversion Hg; subst.
    + intros Hlen. exists f. split; [done|]. unfold usable_run. rewrite Hd.
      destruct (Nat.ltb_spec (length d) 2); [lia|]. by left.
  - rewrite elem_of_flat_map. split.
    + intros (g & _ & Hg). unfold progress in Hg.
      apply elem_of_cons in Hg as [Hg|Hg]; [by inversion Hg|].
      destruct (HistogramAnalysis.parse_navigation_log fs g) as [d'|] eqn:E;
        [|by apply elem_of_nil in Hg].
      destruct (Nat.ltb_spec (length d') 2); [|by apply elem_of_nil in Hg].
      apply list_elem_of_singleton in Hg. simplify_eq/=.
      rewrite Hd in E. by simplify_eq.
    + intros Hlen. exists f. split; [done|]. unfold progress. rewrite Hd.
      destruct (Nat.ltb_spec (length d) 2); [|lia]. right. by left.
Qed.

Lemma short_runs_are_excluded_witness :
  exists (tr' : list effect) (all_runs_data : list Run),
    HistogramAnalysis.process_logs sample_dir (glob_sorted sample_dir) [] []
      = ([] ++ tr', Ok all_runs_data) /\
    LineCreator.process_logs sample_dir (glob_sorted sample_dir) [] []
      = ([] ++ tr', Ok all_runs_data) /\
    forall f d,
      f ∈ glob_sorted sample_dir ->
      HistogramAnalysis.parse_navigation_log sample_dir f = Ok d ->
      (mkRun (stem f) d ∈ all_runs_data <-> 2 <= length d) /\
      (Print ("  Insufficient data in " +:+ f) ∈ tr' <-> length d < 2).
Proof.
  apply (short_runs_are_excluded sample_dir (glob_sorted sample_dir) []).
  intros f Hf.
  let l := eval vm_compute in (glob_sorted sample_dir) in
  change (f ∈ l) in Hf.
  apply elem_of_cons in Hf as [->|Hf];
    [eexists; vm_compute; reflexivity|].
  apply elem_of_cons in Hf as [->|Hf];
    [eexists; vm_compute; reflexivity|].
  by apply elem_of_nil in Hf.
Defined.

(** ** No log files *)

Lemma glob_sorted_none (fs : directory) :
  (forall p, is_Some (fs !! p) -> is_log_name p = false) ->
  glob_sorted fs = [].
Proof.
  intros Hnone. unfold glob_sorted.
  assert (filter (fun p => is_log_name p = true) (map fst (map_to_list fs))
          = []) as ->; [|done].
  assert (Forall (fun p => is_Some (fs !! p)) (map fst (map_to_list fs)))
    as Hkeys.
  { apply Forall_forall. intros p Hp.
    apply (list_elem_of_fmap_1 fst) in Hp as ([q v] & -> & Hqv).
    apply elem_of_map_to_list in Hqv. by exists v. }
  induction Hkeys as [|p l Hp _ IH]; [done|].
  rewrite filter_cons. case_decide as Hc; [|done].
  rewrite (Hnone p Hp) in Hc. discriminate.
Qed.

(** C9. When no file of the folder matches [NavigationLog_*.txt], either
    tool prints "No navigation log files found!" and returns without an
    exception; all it has done before is to make sure of its output
    folder, and it saves no figure. *)
Theorem no_log_files (draw_histogram : Numpy.array -> result unit)
    (plot_combined_navigation : list Run -> result unit)
    (fs : directory) :
  (forall p, is_Some (fs !! p) -> is_log_name p = false) ->
  HistogramAnalysis.main draw_histogram fs [] =
    ([Mkdir "histogram_analysis"; Print "No navigation log files found!"],
     Ok tt) /\
  LineCreator.main plot_combined_navigation fs [] =
    ([Mkdir "line_plots"; Print "No navigation log files found!"], Ok tt).
Proof.
  intros Hnone%glob_sorted_none.
  unfold HistogramAnalysis.main, LineCreator.main. by rewrite Hnone.
Qed.

Lemma no_log_files_witness :
  HistogramAnalysis.main (fun _ => Ok tt) {["notes.txt" := "todo"]} [] =
    ([Mkdir "histogram_analysis"; Print "No navigation log files found!"],
     Ok tt) /\
  LineCreator.main (fun _ => Ok tt) {["notes.txt" := "todo"]} [] =
    ([Mkdir "line_plots"; Print "No navigation log files found!"], Ok tt).
Proof.
  apply (no_log_files (fun _ => Ok tt) (fun _ => Ok tt)).
  intros p [v Hv]. apply lookup_singleton_Some in Hv as [<- _]. reflexivity.
Defined.

(** ** Statistics *)

(** *** Summation by halves *)

(** The halving of [pairwise_sum] never runs out of levels: any depth
    from the length of the array on gives the same sum. *)
Lemma pairwise_sum_rec_depth (d d' : nat) (a : Numpy.array) :
  length a <= d -> length a <= d' ->
  Numpy.pairwise_sum_rec d a = Numpy.pairwise_sum_rec d' a.
Proof.
  revert d' a. induction d as [|d IH]; intros d' a Hd Hd'.
  - destruct a; [|simpl in Hd; lia]. by destruct d'.
  - destruct d' as [|d'].
    { destruct a; [done|simpl in Hd'; lia]. }
    cbn [Numpy.pairwise_sum_rec].
    destruct (Nat.ltb_spec (length a) 8); [done|].
    destruct (Nat.leb_spec (length a) 128); [done|].
    assert (0 < length a `div` 2 - (length a `div` 2) `mod` 8 < length a).
    { pose proof (Nat.div_mod_eq (length a) 2).
      pose proof (Nat.mod_upper_bound (length a) 2).
      pose proof (Nat.mod_upper_bound (length a `div` 2) 8). lia. }
    f_equal; apply IH; rewrite ?length_take, ?length_drop; lia.
Qed.

(** *** The order of floats *)

Lemma sort_lt_key (x y : Float64.float) :
  Numpy.sort_lt x y = true <-> key_lt (sort_key x) (sort_key y).
Proof.
  unfold Numpy.sort_lt, Float64.ltb, SFltb, key_lt.
  destruct x as [sx|sx| |sx mx ex], y as [sy|sy| |sy my ey];
    try destruct sx; try destruct sy; cbn;
    try (split; [done|lia]); try (split; [lia|done]).
  - change (Pos.compare_cont Eq mx my) with (Pos.compare mx my).
    destruct (Z.compare_spec ex ey), (Pos.compare_spec mx my); cbn;
      split; (done || lia).
  - change (Pos.compare_cont Eq mx my) with (Pos.compare mx my).
    destruct (Z.compare_spec ex ey), (Pos.compare_spec mx my); cbn;
      split; (done || lia).
Qed.

Lemma sort_le_key (x y : Float64.float) :
  Numpy.sort_le x y <-> ~ key_lt (sort_key y) (sort_key x).
Proof.
  unfold Numpy.sort_le. rewrite <- sort_lt_key.
  by destruct (Numpy.sort_lt y x).
Qed.

#[global] Instance sort_le_total : Total Numpy.sort_le.
Proof.
  intros x y. rewrite !sort_le_key. unfold key_lt.
  destruct (sort_key x) as [[? ?] ?], (sort_key y) as [[? ?] ?]; cbn. lia.
Qed.

#[global] Instance sort_le_trans : Transitive Numpy.sort_le.
Proof.
  intros x y z. rewrite !sort_le_key. unfold key_lt.
  destruct (sort_key x) as [[? ?] ?], (sort_key y) as [[? ?] ?],
    (sort_key z) as [[? ?] ?]; cbn. lia.
Qed.

(** Among absolute values the order has no ties. *)
Lemma sort_le_antisym_abs (x y : Float64.float) :
  Numpy.sort_le (Float64.abs x) (Float64.abs y) ->
  Numpy.sort_le (Float64.abs y) (Float64.abs x) ->
  Float64.abs x = Float64.abs y.
Proof.
  rewrite !sort_le_key. unfold key_lt.
  destruct x as [sx|sx| |sx mx ex], y as [sy|sy| |sy my ey]; cbn;
    try done; try lia.
  intros H1 H2. assert (ex = ey /\ mx = my) as [-> ->] by lia. done.
Qed.

Lemma maximum_test (x y : Float64.float) :
  Float64.leb y x || Float64.isnan x = negb (Numpy.sort_lt x y).
Proof.
  unfold Numpy.sort_lt, Float64.leb, Float64.ltb, SFleb, SFltb.
  destruct x as [sx|sx| |sx mx ex], y as [sy|sy| |sy my ey];
    try destruct sx; try destruct sy; cbn; try done.
  all: change (Pos.compare_cont Eq my mx) with (Pos.compare my mx);
    change (Pos.compare_cont Eq mx my) with (Pos.compare mx my);
    rewrite (Z.compare_antisym ex ey), (Pos.compare_antisym mx my);
    by destruct (ex ?= ey)%Z, (mx ?= my)%positive.
Qed.

(** [np.maximum] picks the later of the two in the sorting order. *)
Lemma maximum_sort_le (x y : Float64.float) :
  Numpy.maximum x y = if decide (Numpy.sort_le y x) then x else y.
Proof.
  unfold Numpy.maximum. rewrite maximum_test. unfold Numpy.sort_le.
  case_decide as H; [by rewrite H|].
  by destruct (Numpy.sort_lt x y).
Qed.

Lemma fold_maximum_greatest (l : list Float64.float) (x : Float64.float) :
  fold_left Numpy.maximum l x ∈ x :: l /\
  forall y, y ∈ x :: l -> Numpy.sort_le y (fold_left Numpy.maximum l x).
Proof.
  revert x. induction l as [|z l IH]; intros x; cbn [fold_left].
  - split; [by left|]. intros y ->%list_elem_of_singleton.
    destruct (sort_le_total x x); done.
  - destruct (IH (Numpy.maximum x z)) as [Hin Hge].
    assert (Numpy.sort_le x (Numpy.maximum x z) /\
            Numpy.sort_le z (Numpy.maximum x z) /\
            (Numpy.maximum x z = x \/ Numpy.maximum x z = z))
      as (Hx & Hz & Hm).
    { rewrite maximum_sort_le. case_decide as H.
      - split_and!; [by destruct (sort_le_total x x)|done|by left].
      - split_and!; [|by destruct (sort_le_total z z)|by right].
        by destruct (sort_le_total x z). }
    split.
    + apply elem_of_cons in Hin as [Hin|Hin].
      * rewrite Hin. destruct Hm as [->| ->]; [by left|right; by left].
      * right. by right.
    + intros y [->|[->|Hy]%elem_of_cons]%elem_of_cons.
      * etrans; [exact Hx|]. apply Hge. by left.
      * etrans; [exact Hz|]. apply Hge. by left.
      * apply Hge. by right.
Qed.

(** [np.max] of the absolute values does not depend on their order. *)
Lemma np_max_abs_perm (a b : Numpy.array) :
  a ≡ₚ b -> Numpy.np_max (Numpy.np_abs a) = Numpy.np_max (Numpy.np_abs b).
Proof.
  intros Hp.
  assert (Numpy.np_abs a ≡ₚ Numpy.np_abs b) as Hp'
    by (by apply Permutation_map).
  destruct (Numpy.np_abs a) as [|x l] eqn:Ea,
    (Numpy.np_abs b) as [|y k] eqn:Eb.
  - done.
  - by apply Permutation_nil_l in Hp'.
  - by apply Permutation_nil_r in Hp'.
  - cbn [Numpy.np_max]. f_equal.
    destruct (fold_maximum_greatest l x) as [Hin1 Hge1],
      (fold_maximum_greatest k y) as [Hin2 Hge2].
    assert (forall v, v ∈ x :: l -> exists w, v = Float64.abs w) as Habs.
    { intros v Hv. rewrite <- Ea in Hv. unfold Numpy.np_abs in Hv.
      apply list_elem_of_In, in_map_iff in Hv as (w & <- & _). by exists w. }
    destruct (Habs _ Hin1) as [w1 E1].
    assert (fold_left Numpy.maximum k y ∈ x :: l) as Hin2'
      by (by rewrite Hp').
    destruct (Habs _ Hin2') as [w2 E2].
    rewrite E1, E2. apply sort_le_antisym_abs; rewrite <- E1, <- E2.
    + apply Hge2. by rewrite <- Hp'.
    + by apply Hge1.
Qed.

(** Sorting the absolute values does not depend on their order. *)
Lemma np_sort_abs_perm (a b : Numpy.array) :
  a ≡ₚ b -> Numpy.np_sort (Numpy.np_abs a) = Numpy.np_sort (Numpy.np_abs b).
Proof.
  intros Hp. unfold Numpy.np_sort.
  apply (StronglySorted_unique_strong Numpy.sort_le).
  - intros x1 x2 H1 H2.
    rewrite merge_sort_Permutation in H1, H2.
    unfold Numpy.np_abs in H1, H2.
    apply list_elem_of_In, in_map_iff in H1 as (w1 & <- & _).
    apply list_elem_of_In, in_map_iff in H2 as (w2 & <- & _).
    apply sort_le_antisym_abs.
  - apply StronglySorted_merge_sort; apply _.
  - apply StronglySorted_merge_sort; apply _.
  - rewrite !merge_sort_Permutation. by apply Permutation_map.
Qed.

Lemma readings_rotated_perm : readings ≡ₚ readings_rotated.
Proof.
  change readings_rotated with (tail readings ++ take 1 readings).
  change readings with (take 1 readings ++ tail readings) at 1.
  apply Permutation_app_comm.
Qed.

(** C8, as stated, fails: the mean, the mean of the absolute values and
    the standard deviation are floating-point sums taken in the order of
    the array, and the three of them change when 0.1, 0.3, 0.15 is read
    as 0.3, 0.15, 0.1. *)
Lemma sums_depend_on_order :
  readings ≡ₚ readings_rotated /\
  statistics readings <> statistics readings_rotated /\
  Numpy.np_mean readings <> Numpy.np_mean readings_rotated /\
  Numpy.np_mean (Numpy.np_abs readings) <>
  Numpy.np_mean (Numpy.np_abs readings_rotated) /\
  Numpy.np_std readings <> Numpy.np_std readings_rotated.
Proof.
  split; [apply readings_rotated_perm|].
  split_and!; vm_compute; discriminate.
Qed.

(** C8, amended. For every list of error values and every permutation
    of it, the count, the maximum absolute value and the 95th percentile
    of the absolute values are unchanged. *)
Theorem order_free_statistics (a b : Numpy.array) :
  a ≡ₚ b ->
  length a = length b /\
  Numpy.np_max (Numpy.np_abs a) = Numpy.np_max (Numpy.np_abs b) /\
  Numpy.np_percentile (Numpy.np_abs a) 95 =
  Numpy.np_percentile (Numpy.np_abs b) 95.
Proof.
  intros Hp. split; [by apply Permutation_length|].
  split; [by apply np_max_abs_perm|].
  unfold Numpy.np_percentile.
  rewrite (np_sort_abs_perm a b Hp).
  unfold Numpy.np_abs. rewrite !length_map.
  by rewrite (Permutation_length Hp).
Qed.

Lemma order_free_statistics_witness :
  length readings = length readings_rotated /\
  Numpy.np_max (Numpy.np_abs readings) =
  Numpy.np_max (Numpy.np_abs readings_rotated) /\
  Numpy.np_percentile (Numpy.np_abs readings) 95 =
  Numpy.np_percentile (Numpy.np_abs readings_rotated) 95.
Proof.
  apply (order_free_statistics readings readings_rotated).
  change readings_rotated with (tail readings ++ take 1 readings).
  change readings with (take 1 readings ++ tail readings) at 1.
  apply Permutation_app_comm.
Defined.

(** * Further properties *)

(** ** Lines, blanks and fields *)

Lemma append_cons (c : ascii) (s t : string) :
  String c s +:+ t = String c (s +:+ t).
Proof. reflexivity. Qed.

Lemma append_nil_r (s : string) : s +:+ EmptyString = s.
Proof.
  induction s as [|c s IH]; [done|]. by rewrite append_cons, IH.
Qed.

Lemma append_assoc (s t u : string) : (s +:+ t) +:+ u = s +:+ t +:+ u.
Proof.
  induction s as [|c s IH]; [done|]. by rewrite !append_cons, IH.
Qed.

Lemma chars_append (s t : string) :
  list_ascii_of_string (s +:+ t) =
  list_ascii_of_string s ++ list_ascii_of_string t.
Proof.
  induction s as [|c s IH]; [done|]. rewrite append_cons. simpl.
  by rewrite IH.
Qed.

Lemma rstrip_empty (s : string) :
  PyStr.rstrip s = EmptyString <->
  Forall (fun c => PyStr.isspace c = true) (list_ascii_of_string s).
Proof.
  induction s as [|c s IH]; simpl; [done|].
  destruct (PyStr.rstrip s) as [|d t] eqn:E.
  - destruct (PyStr.isspace c) eqn:Hc; split; try done.
    + intros _. constructor; [done|]. by apply IH.
    + intros [Hc' _]%Forall_cons. congruence.
  - split; [done|]. intros [_ H]%Forall_cons. by apply IH in H.
Qed.

Lemma lstrip_spaces (s : string) :
  Forall (fun c => PyStr.isspace c = true) (list_ascii_of_string s) <->
  Forall (fun c => PyStr.isspace c = true)
    (list_ascii_of_string (PyStr.lstrip s)).
Proof.
  induction s as [|c s IH]; simpl; [done|].
  destruct (PyStr.isspace c) eqn:Hc; simpl; [|done].
  rewrite <- IH. split; [by intros [_ ?]%Forall_cons|by constructor].
Qed.

Lemma is_blank_spec (line : string) :
  is_blank line = true <->
  Forall (fun c => PyStr.isspace c = true) (list_ascii_of_string line).
Proof.
  unfold is_blank, PyStr.strip. rewrite lstrip_spaces, <- rstrip_empty.
  destruct (PyStr.rstrip (PyStr.lstrip line)); simpl; split; done.
Qed.

(** X1. A line is passed over as blank exactly when all its characters
    are white space ([str.isspace]); the empty line is one. *)
Theorem blank_iff_all_space (line : string) :
  is_blank line = true <->
  Forall (fun c => PyStr.isspace c = true) (list_ascii_of_string line).
Proof. apply is_blank_spec. Qed.

Lemma date_line_not_blank (line : string) :
  is_date_line line = true -> is_blank line = false.
Proof.
  intros Hd. destruct (is_blank line) eqn:Hb; [|done].
  apply is_blank_spec in Hb.
  destruct line as [|c line]; [done|].
  apply Forall_cons in Hb as [Hc _].
  unfold is_date_line in Hd. cbn [PyStr.startswith] in Hd.
  apply andb_true_iff in Hd as [Hc2%Ascii.eqb_eq _]. subst c.
  vm_compute in Hc. discriminate Hc.
Qed.

Lemma split_nonempty (s : string) (sep : ascii) : PyStr.split s sep <> [].
Proof. induction s as [|c s IH]; simpl; [done|]. by repeat case_match. Qed.

Lemma split_append (s t : string) (sep : ascii) :
  PyStr.split (s +:+ String sep t) sep =
  PyStr.split s sep ++ PyStr.split t sep.
Proof.
  induction s as [|c s IH].
  - simpl. by rewrite Ascii.eqb_refl.
  - rewrite append_cons. simpl.
    rewrite IH. destruct (Ascii.eqb c sep); [done|].
    pose proof (split_nonempty s sep).
    by destruct (PyStr.split s sep).
Qed.

Lemma join_tab_cons (p : string) (ps : list string) :
  ps <> [] -> join_tab (p :: ps) = p +:+ String TAB (join_tab ps).
Proof. by destruct ps. Qed.

Lemma join_tab_String (c : ascii) (p : string) (ps : list string) :
  join_tab (String c p :: ps) = String c (join_tab (p :: ps)).
Proof. by destruct ps. Qed.

(** X2. A line has one field more than it has tabs, and the fields,
    joined by tabs again, give back the line. *)
Theorem fields_join (line : string) :
  join_tab (fields line) = line /\
  length (fields line) =
  S (length (filter (fun c => c = TAB) (list_ascii_of_string line))).
Proof.
  unfold fields. induction line as [|c line [IH1 IH2]]; [done|].
  cbn [PyStr.split list_ascii_of_string]. rewrite filter_cons.
  pose proof (split_nonempty line TAB) as Hne.
  destruct (Ascii.eqb_spec c TAB) as [->|Hc].
  - case_decide; [|done]. split; [|simpl; by rewrite IH2].
    by rewrite join_tab_cons, IH1.
  - case_decide; [done|]. rewrite <- IH2.
    destruct (PyStr.split line TAB) as [|p ps]; [done|].
    split; [|done]. by rewrite join_tab_String, IH1.
Qed.

(** ** Reading a file *)

Lemma split_lines_concat (s : string) :
  String.concat EmptyString (split_lines s) = s.
Proof.
  induction s as [|c s IH]; [done|]. cbn [split_lines].
  destruct (Ascii.eqb c LF).
  - destruct (split_lines s) as [|l ls] eqn:E.
    + simpl in *. by rewrite <- IH.
    + change (String c (EmptyString +:+ String.concat EmptyString (l :: ls))
              = String c s). by rewrite IH.
  - destruct (split_lines s) as [|l ls] eqn:E.
    + simpl in *. by rewrite <- IH.
    + rewrite <- IH. by destruct ls.
Qed.

Lemma split_lines_shape (s : string) :
  Forall (fun line =>
            exists body,
              (line = body +:+ NL \/ line = body /\ body <> EmptyString) /\
              LF ∉ list_ascii_of_string body)
    (split_lines s).
Proof.
  induction s as [|c s IH]; [constructor|]. cbn [split_lines].
  destruct (Ascii.eqb_spec c LF) as [->|Hc].
  - constructor; [|done]. exists EmptyString. split; [by left|].
    by intros ?%elem_of_nil.
  - destruct (split_lines s) as [|l ls].
    + constructor; [|done]. exists (String c EmptyString).
      split; [by right|]. by intros [?|?%elem_of_nil]%elem_of_cons.
    + apply Forall_cons in IH as [(body & Hl & Hb) IH].
      constructor; [|done]. exists (String c body). split.
      * destruct Hl as [->|[-> ?]]; [by left|by right].
      * by intros [?|?]%elem_of_cons.
Qed.

Lemma universal_newlines_no_CR (s : string) :
  CR ∉ list_ascii_of_string (universal_newlines s).
Proof.
  induction s as [|c s IH]; [by intros ?%elem_of_nil|].
  cbn [universal_newlines].
  destruct (Ascii.eqb_spec c CR) as [->|Hc].
  - destruct s as [|c' s']; [by intros [?|?%elem_of_nil]%elem_of_cons|].
    destruct (Ascii.eqb c' LF); [done|].
    by intros [?|?]%elem_of_cons.
  - by intros [?|?]%elem_of_cons.
Qed.

(** X4. [readlines] cuts the text, with its line ends made [\n], into
    lines and loses nothing: the lines put together are that text.
    No line is empty, a [\n] is found only at the end of a line, and no
    [\r] is left. *)
Theorem readlines_partition (text : string) :
  String.concat EmptyString (readlines text) = universal_newlines text /\
  Forall (fun line =>
            exists body,
              (line = body +:+ NL \/ line = body /\ body <> EmptyString) /\
              LF ∉ list_ascii_of_string body)
    (readlines text) /\
  CR ∉ list_ascii_of_string (universal_newlines text).
Proof.
  unfold readlines. split; [apply split_lines_concat|].
  split; [apply split_lines_shape|apply universal_newlines_no_CR].
Qed.

(** ** [float] and white space *)

Lemma isspace_c_fixed (c : ascii) :
  PyStr.isspace_c c = true -> PyStr.space_to_ascii c = c.
Proof.
  unfold PyStr.isspace_c, PyStr.space_to_ascii. intros H.
  destruct (N.leb_spec 127 (PyStr.code c)) as [Hge|]; [|done].
  exfalso. revert H.
  destruct (N.leb_spec 9 (PyStr.code c)), (N.leb_spec (PyStr.code c) 13),
    (N.eqb_spec (PyStr.code c) 32); simpl; intros; try done; lia.
Qed.

Lemma lstrip_c_spaces (ws cs : list ascii) :
  Forall (fun c => PyStr.isspace_c c = true) ws ->
  PyStr.lstrip_c (ws ++ cs) = PyStr.lstrip_c cs.
Proof. induction 1 as [|c ws Hc _ IH]; simpl; [done|by rewrite Hc]. Qed.

Lemma lstrip_c_app (cs ws : list ascii) :
  Forall (fun c => PyStr.isspace_c c = true) ws ->
  PyStr.lstrip_c (cs ++ ws) =
  match PyStr.lstrip_c cs with [] => [] | r => r ++ ws end.
Proof.
  intros Hws. induction cs as [|c cs IH]; simpl.
  - rewrite <- (app_nil_r ws). by rewrite lstrip_c_spaces.
  - by destruct (PyStr.isspace_c c).
Qed.

Lemma strip_c_spaces (ws1 cs ws2 : list ascii) :
  Forall (fun c => PyStr.isspace_c c = true) ws1 ->
  Forall (fun c => PyStr.isspace_c c = true) ws2 ->
  PyStr.strip_c (ws1 ++ cs ++ ws2) = PyStr.strip_c cs.
Proof.
  intros H1 H2. unfold PyStr.strip_c.
  rewrite lstrip_c_spaces, lstrip_c_app by done.
  destruct (PyStr.lstrip_c cs) as [|c r]; [done|].
  rewrite rev_app_distr, lstrip_c_spaces; [done|].
  apply Forall_forall. intros x Hx%list_elem_of_In%in_rev%list_elem_of_In.
  by eapply Forall_forall in H2.
Qed.

(** X5. [float] does not mind white space around the number: blanks,
    tabs and line ends before and after a string do not change what it
    returns, a float or [ValueError]. So the last field of a row may
    carry the newline of its line. *)
Theorem float_ignores_outer_space (before s after : string) :
  Forall (fun c => PyStr.isspace_c c = true) (list_ascii_of_string before) ->
  Forall (fun c => PyStr.isspace_c c = true) (list_ascii_of_string after) ->
  PyStr.float (before +:+ s +:+ after) = PyStr.float s.
Proof.
  intros H1 H2. unfold PyStr.float.
  rewrite !chars_append, !map_app.
  assert (forall w,
            Forall (fun c => PyStr.isspace_c c = true) w ->
            map PyStr.space_to_ascii w = w) as Hfix.
  { induction 1 as [|c w Hc _ IH]; simpl; [done|].
    by rewrite IH, isspace_c_fixed. }
  rewrite (Hfix _ H1), (Hfix _ H2). by rewrite strip_c_spaces.
Qed.

Lemma float_ignores_outer_space_witness :
  PyStr.float (" " +:+ "-93.0" +:+ NL) = PyStr.float "-93.0".
Proof.
  apply (float_ignores_outer_space " " "-93.0" NL).
  - repeat constructor.
  - repeat constructor.
Defined.

(** ** More on the parser *)

(** ** Fields after the fourth *)

Lemma sample_of_line_extra (line extra : string) :
  4 <= length (fields line) ->
  sample_of_line (line +:+ String TAB extra) = sample_of_line line.
Proof.
  intros Hlen. unfold sample_of_line, getitem, fields.
  rewrite split_append, !lookup_app_l by (unfold fields in Hlen; lia).
  done.
Qed.

Lemma split_no_sep (s : string) (sep : ascii) :
  sep ∉ list_ascii_of_string s -> PyStr.split s sep = [s].
Proof.
  induction s as [|c s IH]; [done|]. cbn [list_ascii_of_string PyStr.split].
  intros [Hc Hs]%not_elem_of_cons.
  destruct (Ascii.eqb_spec c sep) as [->|_]; [done|]. by rewrite IH.
Qed.

Lemma split_snoc (s t : string) (sep : ascii) :
  sep ∉ list_ascii_of_string t ->
  exists ps p,
    PyStr.split s sep = ps ++ [p] /\
    PyStr.split (s +:+ t) sep = ps ++ [p +:+ t].
Proof.
  intros Ht. induction s as [|c s (ps & p & E1 & E2)].
  - exists [], EmptyString. split; [done|]. by apply split_no_sep.
  - rewrite append_cons. cbn [PyStr.split]. rewrite E1, E2.
    destruct (Ascii.eqb c sep).
    + by exists (EmptyString :: ps), p.
    + destruct ps as [|q ps]; cbn [app].
      * by exists [], (String c p).
      * by exists (String c q :: ps), p.
Qed.

Lemma float_trailing_space (s after : string) :
  Forall (fun c => PyStr.isspace_c c = true) (list_ascii_of_string after) ->
  PyStr.float (s +:+ after) = PyStr.float s.
Proof.
  intros H. unfold PyStr.float. rewrite chars_append, map_app.
  assert (map PyStr.space_to_ascii (list_ascii_of_string after)
          = list_ascii_of_string after) as ->.
  { induction H as [|c w Hc _ IH]; simpl; [done|].
    by rewrite IH, isspace_c_fixed. }
  pose proof (strip_c_spaces []
                (map PyStr.space_to_ascii (list_ascii_of_string s)) _
                (Forall_nil_2 _) H) as E.
  cbn [app] in E. by rewrite E.
Qed.

Lemma sample_of_line_eol (line eol : string) :
  eol = EmptyString \/ eol = NL ->
  sample_of_line (line +:+ eol) = sample_of_line line.
Proof.
  intros [->| ->]; [by rewrite append_nil_r|].
  destruct (split_snoc line NL TAB) as (ps & p & E1 & E2).
  { vm_compute. by intros [?|[]]%list_elem_of_In. }
  assert (forall i,
            getitem (fields (line +:+ NL)) i ≫= py_float =
            getitem (fields line) i ≫= py_float) as Hi.
  { intros i. unfold fields, getitem. rewrite E1, E2.
    destruct (Nat.lt_ge_cases i (length ps)).
    - by rewrite !lookup_app_l.
    - rewrite !lookup_app_r by done.
      destruct (i - length ps) as [|j]; [|done]. cbn.
      unfold py_float. rewrite float_trailing_space; [done|].
      repeat constructor. }
  unfold sample_of_line. by rewrite !Hi.
Qed.

Lemma split_has_sep (s : string) (sep : ascii) :
  2 <= length (PyStr.split s sep) -> sep ∈ list_ascii_of_string s.
Proof.
  intros Hlen. destruct (decide (sep ∈ list_ascii_of_string s)); [done|].
  rewrite split_no_sep in Hlen by done. simpl in Hlen. lia.
Qed.

Lemma startswith_app (s t p : string) (sep : ascii) :
  sep ∈ list_ascii_of_string s -> sep ∉ list_ascii_of_string p ->
  PyStr.startswith (s +:+ t) p = PyStr.startswith s p.
Proof.
  revert s. induction p as [|a p IH]; intros s Hs Hp; [by destruct s|].
  destruct s as [|b s]; [by apply elem_of_nil in Hs|].
  rewrite append_cons. cbn [PyStr.startswith].
  cbn [list_ascii_of_string] in Hs, Hp.
  apply not_elem_of_cons in Hp as [Ha Hp].
  apply elem_of_cons in Hs as [->|Hs].
  - destruct (Ascii.eqb_spec a b); [done|done].
  - by rewrite IH.
Qed.

Lemma is_blank_append (s t : string) :
  is_blank s = false -> is_blank (s +:+ t) = false.
Proof.
  intros Hs. destruct (is_blank (s +:+ t)) eqn:Hb; [|done].
  apply is_blank_spec in Hb. rewrite chars_append in Hb.
  apply Forall_app in Hb as [Hb _]. apply is_blank_spec in Hb. congruence.
Qed.

Lemma parse_lines_replace (pre : list string) (l1 l2 : string)
    (post : list string) (data_start : bool) (data : list Sample) :
  is_date_line l1 = is_date_line l2 ->
  is_row l1 = is_row l2 ->
  sample_of_line l1 = sample_of_line l2 ->
  HistogramAnalysis.parse_lines (pre ++ l1 :: post) data_start data =
  HistogramAnalysis.parse_lines (pre ++ l2 :: post) data_start data.
Proof.
  intros Hd Hr Hs. revert data_start data.
  induction pre as [|l pre IH]; intros data_start data; cbn [app];
    rewrite !parse_lines_step; cbv zeta.
  - by rewrite Hd, Hr, Hs.
  - destruct (_ && _); [|apply IH].
    destruct (sample_of_line l); [|done]. rewrite !result_bind_ok. apply IH.
Qed.

(** X3. Fields beyond the fourth are ignored: when another field, a
    tab and any text, is added at the end of a row, before the line
    break if the line has one, the parser returns the same samples or
    raises the same exception. A row is a line that is not blank and
    has at least 4 fields. *)
Theorem trailing_fields_ignored (fs : directory)
    (path1 path2 text1 text2 : string)
    (pre : list string) (line extra eol : string) (post : list string) :
  fs !! path1 = Some text1 ->
  fs !! path2 = Some text2 ->
  readlines text1 = pre ++ (line +:+ eol) :: post ->
  readlines text2 = pre ++ (line +:+ String TAB extra +:+ eol) :: post ->
  eol = EmptyString \/ eol = NL ->
  is_blank line = false ->
  4 <= length (fields line) ->
  HistogramAnalysis.parse_navigation_log fs path1 =
  HistogramAnalysis.parse_navigation_log fs path2.
Proof.
  intros H1 H2 R1 R2 Heol Hb Hlen.
  unfold HistogramAnalysis.parse_navigation_log,
    HistogramAnalysis.parse_text.
  rewrite H1, H2, R1, R2.
  assert (TAB ∈ list_ascii_of_string line) as Htab
    by (apply split_has_sep; unfold fields in Hlen; lia).
  assert (TAB ∉ list_ascii_of_string "2025-") as Hp.
  { vm_compute. intros H%list_elem_of_In. simpl in H.
    repeat (destruct H as [[=]|H]; []). done. }
  change (line +:+ String TAB extra +:+ eol)
    with (line +:+ String TAB (extra +:+ eol)).
  apply parse_lines_replace.
  - unfold is_date_line. by rewrite !(startswith_app line _ _ TAB) by done.
  - unfold is_row. rewrite !is_blank_append by done.
    replace (4 <=? length (fields (line +:+ eol))) with true.
    + unfold fields. rewrite split_append, length_app.
      symmetry. apply Nat.leb_le. unfold fields in Hlen. lia.
    + symmetry. apply Nat.leb_le.
      destruct Heol as [->| ->]; [by rewrite append_nil_r|].
      destruct (split_snoc line NL TAB) as (ps & p & E1 & E2).
      { vm_compute. by intros [?|[]]%list_elem_of_In. }
      unfold fields in *. rewrite E2. rewrite E1 in Hlen.
      by rewrite length_app in *.
  - by rewrite sample_of_line_extra, sample_of_line_eol.
Qed.

Lemma trailing_fields_ignored_witness :
  HistogramAnalysis.parse_navigation_log
    (<["short.txt" :=
         log_header
         +:+ tsv ["2025-03-01 10:00:00"; "0.02"; "45.0"; "-93.0"]
         +:+ tsv ["2025-03-01 10:00:02"; "-0.03"; "45.1"; "-93.0"]]>
       {["long.txt" :=
           log_header
           +:+ tsv ["2025-03-01 10:00:00"; "0.02"; "45.0"; "-93.0";
                    "7 satellites"]
           +:+ tsv ["2025-03-01 10:00:02"; "-0.03"; "45.1"; "-93.0"]]})
    "short.txt" =
  HistogramAnalysis.parse_navigation_log
    (<["short.txt" :=
         log_header
         +:+ tsv ["2025-03-01 10:00:00"; "0.02"; "45.0"; "-93.0"]
         +:+ tsv ["2025-03-01 10:00:02"; "-0.03"; "45.1"; "-93.0"]]>
       {["long.txt" :=
           log_header
           +:+ tsv ["2025-03-01 10:00:00"; "0.02"; "45.0"; "-93.0";
                    "7 satellites"]
           +:+ tsv ["2025-03-01 10:00:02"; "-0.03"; "45.1"; "-93.0"]]})
    "long.txt".
Proof.
  apply (trailing_fields_ignored _ _ _
           (log_header
            +:+ tsv ["2025-03-01 10:00:00"; "0.02"; "45.0"; "-93.0"]
            +:+ tsv ["2025-03-01 10:00:02"; "-0.03"; "45.1"; "-93.0"])
           (log_header
            +:+ tsv ["2025-03-01 10:00:00"; "0.02"; "45.0"; "-93.0";
                     "7 satellites"]
            +:+ tsv ["2025-03-01 10:00:02"; "-0.03"; "45.1"; "-93.0"])
           ["Navigation Log" +:+ NL; tsv ["Time"; "XTE"; "Lat"; "Lon"]]
           (join_tab ["2025-03-01 10:00:00"; "0.02"; "45.0"; "-93.0"])
           "7 satellites" NL
           [tsv ["2025-03-01 10:00:02"; "-0.03"; "45.1"; "-93.0"]]).
  - reflexivity.
  - reflexivity.
  - vm_compute. reflexivity.
  - vm_compute. reflexivity.
  - by right.
  - vm_compute. reflexivity.
  - vm_compute. lia.
Defined.

Lemma data_section_none (lines : list string) :
  Forall (fun line => is_date_line line = false) lines ->
  data_section lines = [].
Proof. induction 1 as [|l ls Hl _ IH]; simpl; [done|by rewrite Hl]. Qed.

(** X6. A file in which no line begins with "2025-", the empty file for
    one, gives no sample and no exception, whatever its lines hold; in
    both scripts. *)
Theorem parse_without_date_line (fs : directory) (filepath text : string) :
  fs !! filepath = Some text ->
  Forall (fun line => is_date_line line = false) (readlines text) ->
  HistogramAnalysis.parse_navigation_log fs filepath = Ok [] /\
  LineCreator.parse_navigation_log fs filepath = Ok [].
Proof.
  intros Hfs Hnone.
  assert (HistogramAnalysis.parse_navigation_log fs filepath = Ok []) as E.
  { rewrite (parse_navigation_log_text fs filepath text Hfs).
    unfold rows. by rewrite data_section_none. }
  split; [done|]. etrans; [apply parse_navigation_log_agree|done].
Qed.

Lemma parse_without_date_line_witness :
  HistogramAnalysis.parse_navigation_log
    {["NavigationLog_1.txt" := log_header +:+ tsv ["x"; "bad"; "1"; "2"]]}
    "NavigationLog_1.txt" = Ok [] /\
  LineCreator.parse_navigation_log
    {["NavigationLog_1.txt" := log_header +:+ tsv ["x"; "bad"; "1"; "2"]]}
    "NavigationLog_1.txt" = Ok [].
Proof.
  apply (parse_without_date_line _ _
           (log_header +:+ tsv ["x"; "bad"; "1"; "2"])).
  - reflexivity.
  - repeat constructor.
Defined.

Lemma rows_drop_line (pre : list string) (line : string)
    (post : list string) :
  is_date_line line = false -> is_row line = false ->
  rows (pre ++ line :: post) = rows (pre ++ post).
Proof.
  intros Hd Hr. unfold rows. induction pre as [|l pre IH]; simpl.
  - rewrite Hd. destruct post as [|l post]; [done|]. simpl.
    destruct (is_date_line l); [|done].
    rewrite !filter_rows_cons. destruct (is_row l); [|done].
    done.
  - destruct (is_date_line l); [|done].
    rewrite !filter_rows_cons, !filter_app, (filter_rows_cons line), Hr.
    done.
Qed.

(** X7. A line that is blank, or that has fewer than 4 fields and does
    not begin with "2025-", can be taken out of a file, wherever it
    stands, without any change to what the parser returns or raises. *)
Theorem parse_ignores_line (fs : directory) (path1 path2 text1 text2 : string)
    (pre : list string) (line : string) (post : list string) :
  fs !! path1 = Some text1 ->
  fs !! path2 = Some text2 ->
  readlines text1 = pre ++ line :: post ->
  readlines text2 = pre ++ post ->
  is_blank line = true \/
    (length (fields line) < 4 /\ is_date_line line = false) ->
  HistogramAnalysis.parse_navigation_log fs path1 =
  HistogramAnalysis.parse_navigation_log fs path2.
Proof.
  intros H1 H2 R1 R2 Hline.
  rewrite (parse_navigation_log_text fs path1 text1 H1),
    (parse_navigation_log_text fs path2 text2 H2), R1, R2.
  rewrite rows_drop_line; [done| |].
  - destruct Hline as [Hb|[_ Hd]]; [|done].
    destruct (is_date_line line) eqn:Hd; [|done].
    apply date_line_not_blank in Hd. congruence.
  - unfold is_row. destruct Hline as [->|[Hlen _]]; [done|].
    apply Nat.leb_gt in Hlen. rewrite Hlen. by destruct (is_blank line).
Qed.

Lemma parse_ignores_line_witness :
  HistogramAnalysis.parse_navigation_log
    (<["with.txt" := log_good]>
       {["without.txt" :=
           log_header
           +:+ tsv ["2025-03-01 10:00:00"; "0.02"; "45.0"; "-93.0"; "7"]
           +:+ tsv ["2025-03-01 10:00:01"; "-0.01"]
           +:+ tsv ["2025-03-01 10:00:02"; "-0.03"; "45.1"; "-93.0"; "7"]]})
    "with.txt" =
  HistogramAnalysis.parse_navigation_log
    (<["with.txt" := log_good]>
       {["without.txt" :=
           log_header
           +:+ tsv ["2025-03-01 10:00:00"; "0.02"; "45.0"; "-93.0"; "7"]
           +:+ tsv ["2025-03-01 10:00:01"; "-0.01"]
           +:+ tsv ["2025-03-01 10:00:02"; "-0.03"; "45.1"; "-93.0"; "7"]]})
    "without.txt".
Proof.
  apply (parse_ignores_line _ _ _ log_good
           (log_header
           +:+ tsv ["2025-03-01 10:00:00"; "0.02"; "45.0"; "-93.0"; "7"]
           +:+ tsv ["2025-03-01 10:00:01"; "-0.01"]
           +:+ tsv ["2025-03-01 10:00:02"; "-0.03"; "45.1"; "-93.0"; "7"])
           ["Navigation Log" +:+ NL; tsv ["Time"; "XTE"; "Lat"; "Lon"];
            tsv ["2025-03-01 10:00:00"; "0.02"; "45.0"; "-93.0"; "7"]]
           NL
           [tsv ["2025-03-01 10:00:01"; "-0.01"];
            tsv ["2025-03-01 10:00:02"; "-0.03"; "45.1"; "-93.0"; "7"]]).
  - reflexivity.
  - reflexivity.
  - reflexivity.
  - reflexivity.
  - left. reflexivity.
Defined.

Lemma rows_app (l1 l2 : list string) :
  exists more, rows (l1 ++ l2) = rows l1 ++ more.
Proof.
  unfold rows. induction l1 as [|l l1 [more IH]]; simpl.
  - by eexists.
  - destruct (is_date_line l); [|by exists more].
    exists (filter (fun line => is_row line = true) l2).
    rewrite !filter_rows_cons, filter_app. by destruct (is_row l).
Qed.

Lemma mapM_app_ok {A B} (f : A -> result B) (l1 l2 : list A)
    (ys : list B) :
  mapM f (l1 ++ l2) = Ok ys ->
  exists ys1 ys2,
    mapM f l1 = Ok ys1 /\ mapM f l2 = Ok ys2 /\ ys = ys1 ++ ys2.
Proof.
  rewrite mapM_app. destruct (mapM f l1) as [ys1|]; [|done].
  rewrite result_bind_ok. destruct (mapM f l2) as [ys2|]; [|done].
  rewrite result_bind_ok. intros [= <-]. by eexists _, _.
Qed.

(** X8. When a log grows at its end, the samples of what was there stay
    as they were: if the longer file parses, the shorter one parses too,
    and its samples open the list of the longer one. *)
Theorem parse_of_longer_file (fs : directory)
    (path1 path2 text1 text2 : string) (more : list string)
    (data2 : list Sample) :
  fs !! path1 = Some text1 ->
  fs !! path2 = Some text2 ->
  readlines text2 = readlines text1 ++ more ->
  HistogramAnalysis.parse_navigation_log fs path2 = Ok data2 ->
  exists data1 new,
    HistogramAnalysis.parse_navigation_log fs path1 = Ok data1 /\
    data2 = data1 ++ new.
Proof.
  intros H1 H2 R Hp.
  rewrite (parse_navigation_log_text fs path2 text2 H2), R in Hp.
  rewrite (parse_navigation_log_text fs path1 text1 H1).
  destruct (rows_app (readlines text1) more) as [extra E].
  rewrite E in Hp. apply mapM_app_ok in Hp as (d1 & d2 & -> & _ & ->).
  by eexists _, _.
Qed.

Lemma parse_of_longer_file_witness :
  exists data1 new,
    HistogramAnalysis.parse_navigation_log
      (<["long.txt" := log_good]>
         {["short.txt" :=
             log_header
             +:+ tsv ["2025-03-01 10:00:00"; "0.02"; "45.0"; "-93.0"; "7"]]})
      "short.txt" = Ok data1 /\
    [mkSample (default Float64.nan (PyStr.float "0.02"))
       (Float64.of_Z 45) (Float64.opp (Float64.of_Z 93));
     mkSample (default Float64.nan (PyStr.float "-0.03"))
       (default Float64.nan (PyStr.float "45.1"))
       (Float64.opp (Float64.of_Z 93))]
    = data1 ++ new.
Proof.
  apply (parse_of_longer_file
           (<["long.txt" := log_good]>
              {["short.txt" :=
                  log_header
                  +:+ tsv ["2025-03-01 10:00:00"; "0.02"; "45.0"; "-93.0";
                           "7"]]})
           "short.txt" "long.txt"
           (log_header
            +:+ tsv ["2025-03-01 10:00:00"; "0.02"; "45.0"; "-93.0"; "7"])
           log_good
           [NL; tsv ["2025-03-01 10:00:01"; "-0.01"];
            tsv ["2025-03-01 10:00:02"; "-0.03"; "45.1"; "-93.0"; "7"]]).
  - reflexivity.
  - reflexivity.
  - vm_compute. reflexivity.
  - vm_compute. reflexivity.
Defined.

(** ** Finding the log files *)

Lemma endswith_no_sep_eq (s suffix : string) :
  endswith_no_sep s suffix =
  String.eqb s suffix ||
  match s with
  | String c s' => negb (Ascii.eqb c "/") && endswith_no_sep s' suffix
  | EmptyString => false
  end.
Proof. by destruct s. Qed.

Lemma endswith_no_sep_spec (s suffix : string) :
  endswith_no_sep s suffix = true <->
  exists mid, s = mid +:+ suffix /\ "/"%char ∉ list_ascii_of_string mid.
Proof.
  split.
  - induction s as [|c s IH]; rewrite endswith_no_sep_eq.
    + rewrite orb_false_r. intros ->%String.eqb_eq.
      exists EmptyString. split; [done|]. by intros ?%elem_of_nil.
    + intros [->%String.eqb_eq|[Hc H]%andb_true_iff]%orb_true_iff.
      { exists EmptyString. split; [done|]. by intros ?%elem_of_nil. }
      destruct (IH H) as (mid & -> & Hmid).
      exists (String c mid). split; [done|].
      intros [<-|?]%elem_of_cons; [|done].
      by rewrite Ascii.eqb_refl in Hc.
  - intros (mid & -> & Hmid). induction mid as [|c mid IH].
    + change (endswith_no_sep suffix suffix = true).
      rewrite endswith_no_sep_eq. by rewrite String.eqb_refl.
    + rewrite endswith_no_sep_eq, append_cons. apply orb_true_iff. right.
      apply andb_true_iff. split.
      * destruct (Ascii.eqb_spec c "/") as [->|]; [|done].
        destruct Hmid. by left.
      * apply IH. intros ?. apply Hmid. by right.
Qed.

Lemma match_after_prefix_spec (p s : string) :
  match_after_prefix p s = true <->
  exists rest, s = p +:+ rest /\ endswith_no_sep rest log_suffix = true.
Proof.
  revert s. induction p as [|a p IH]; intros s.
  - assert (match_after_prefix EmptyString s = endswith_no_sep s log_suffix)
      as -> by (by destruct s).
    split; [intros H; by exists s|].
    intros (rest & E & H). change (s = rest) in E. by subst.
  - destruct s as [|b s]; simpl.
    + split; [done|]. by intros (? & ? & _).
    + rewrite andb_true_iff, IH. split.
      * intros [->%Ascii.eqb_eq (rest & -> & H)]. by exists rest.
      * intros (rest & [= -> ->] & H).
        split; [apply Ascii.eqb_refl|by exists rest].
Qed.

Lemma is_log_name_spec (path : string) :
  is_log_name path = true <->
  exists mid,
    path = "NavigationLog_" +:+ mid +:+ ".txt" /\
    "/"%char ∉ list_ascii_of_string mid.
Proof.
  unfold is_log_name. rewrite match_after_prefix_spec. split.
  - intros (rest & -> & (mid & -> & Hmid)%endswith_no_sep_spec).
    by exists mid.
  - intros (mid & -> & Hmid). exists (mid +:+ ".txt"). split; [done|].
    apply endswith_no_sep_spec. by exists mid.
Qed.

(** X9. The names that [glob('NavigationLog_*.txt')] picks are those of
    the form [NavigationLog_], anything without a path separator,
    [.txt]; the middle part may be empty. *)
Theorem log_name_shape (path : string) :
  is_log_name path = true <->
  exists mid,
    path = "NavigationLog_" +:+ mid +:+ ".txt" /\
    "/"%char ∉ list_ascii_of_string mid.
Proof. apply is_log_name_spec. Qed.

Lemma length_append (s t : string) :
  String.length (s +:+ t) = String.length s + String.length t.
Proof.
  induction s as [|c s IH]; [done|]. rewrite append_cons. simpl.
  by rewrite IH.
Qed.

Lemma substring_prefix (s t : string) :
  String.substring 0 (String.length s) (s +:+ t) = s.
Proof.
  induction s as [|c s IH]; [by destruct t|].
  rewrite append_cons. simpl. by rewrite IH.
Qed.

(** X10. The name of a run is the name of its log without the [.txt]:
    [stem] followed by [.txt] gives back the file name, so that two
    logs never share a run name. *)
Theorem stem_of_log_name (path : string) :
  is_log_name path = true -> stem path +:+ ".txt" = path.
Proof.
  intros (mid & -> & _)%is_log_name_spec. unfold stem.
  rewrite <- append_assoc, length_append.
  replace (_ + _ - _) with (String.length ("NavigationLog_" +:+ mid))
    by (unfold log_suffix; simpl; lia).
  by rewrite substring_prefix.
Qed.

Lemma stem_of_log_name_witness :
  stem "NavigationLog_2025-03-01.txt" +:+ ".txt"
  = "NavigationLog_2025-03-01.txt".
Proof. apply (stem_of_log_name "NavigationLog_2025-03-01.txt"). reflexivity.
Defined.

#[global] Instance str_le_total : Total str_le.
Proof. intros s t. apply String.leb_total. Qed.

Lemma string_compare_trans (s t u : string) :
  String.compare s t <> Gt -> String.compare t u <> Gt ->
  String.compare s u <> Gt.
Proof.
  revert t u. induction s as [|a s IH]; intros [|b t] [|c u]; simpl;
    try done.
  unfold Ascii.compare.
  destruct (N.compare_spec (N_of_ascii a) (N_of_ascii b)) as [E1|L1|G1];
    [|destruct (N.compare_spec (N_of_ascii b) (N_of_ascii c)) as [E2|L2|G2]
     |done].
  - rewrite E1. destruct (N_of_ascii b ?= N_of_ascii c)%N; [apply IH|done..].
  - intros _ _. rewrite <- E2.
    by destruct (N.compare_spec (N_of_ascii a) (N_of_ascii b)); try lia.
  - intros _ _.
    by destruct (N.compare_spec (N_of_ascii a) (N_of_ascii c)); try lia.
  - done.
Qed.

#[global] Instance str_le_trans : Transitive str_le.
Proof.
  intros s t u. unfold str_le, String.leb.
  pose proof (string_compare_trans s t u).
  destruct (String.compare s t), (String.compare t u),
    (String.compare s u); naive_solver.
Qed.

(** X11. [sorted(glob(..))] lists exactly the paths of the folder that
    match the pattern, each once, in ascending order of their names. *)
Theorem glob_sorted_spec (fs : directory) :
  (forall path,
     path ∈ glob_sorted fs <->
     is_Some (fs !! path) /\ is_log_name path = true) /\
  NoDup (glob_sorted fs) /\
  StronglySorted str_le (glob_sorted fs).
Proof.
  unfold glob_sorted. split_and!.
  - intros path. rewrite merge_sort_Permutation, list_elem_of_filter.
    split.
    + intros [Hn Hin]. split; [|done].
      apply (list_elem_of_fmap_1 fst) in Hin as ([q v] & -> & Hqv).
      apply elem_of_map_to_list in Hqv. by exists v.
    + intros [[v Hv] Hn]. split; [done|].
      apply (list_elem_of_fmap_2' fst _ (path, v)); [|done].
      by apply elem_of_map_to_list.
  - rewrite merge_sort_Permutation. apply NoDup_filter.
    apply NoDup_fst_map_to_list.
  - apply StronglySorted_merge_sort; apply _.
Qed.

(** ** The batch *)

Lemma process_logs_result (fs : directory) (log_files : list string)
    (runs0 : list Run) (tr tr' : list effect) (runs : list Run) :
  HistogramAnalysis.process_logs fs log_files runs0 tr = (tr', Ok runs) ->
  exists new,
    runs = runs0 ++ new /\
    Forall (fun r =>
              exists f, f ∈ log_files /\ name r = stem f /\
                HistogramAnalysis.parse_navigation_log fs f = Ok (data r) /\
                2 <= length (data r)) new.
Proof.
  revert runs0 tr. induction log_files as [|f rest IH]; intros runs0 tr.
  - cbn. intros [= <- <-]. exists []. by rewrite app_nil_r.
  - rewrite process_logs_cons.
    destruct (HistogramAnalysis.parse_navigation_log fs f) as [d|] eqn:E;
      [|done].
    intros (new & -> & Hnew)%IH.
    exists (usable_run fs f ++ new). split; [by rewrite app_assoc|].
    apply Forall_app. split.
    + unfold usable_run. rewrite E.
      destruct (Nat.ltb_spec (length d) 2); constructor; [|done].
      exists f. split_and!; [by left|done|done|done].
    + eapply Forall_impl; [exact Hnew|].
      intros r (g & ? & ?). exists g. split; [by right|done].
Qed.

(** X12. Whatever the folder holds, every run that the loop of [main]
    hands on has at least 2 samples and is the parse of one of the log
    files, under that file's name without [.txt]; in both scripts. *)
Theorem accepted_runs_have_two_samples (fs : directory)
    (log_files : list string) (tr tr' : list effect) (runs : list Run) :
  HistogramAnalysis.process_logs fs log_files [] tr = (tr', Ok runs) \/
  LineCreator.process_logs fs log_files [] tr = (tr', Ok runs) ->
  Forall (fun r =>
            exists f, f ∈ log_files /\ name r = stem f /\
              HistogramAnalysis.parse_navigation_log fs f = Ok (data r) /\
              2 <= length (data r)) runs.
Proof.
  intros H.
  assert (HistogramAnalysis.process_logs fs log_files [] tr = (tr', Ok runs))
    as H'.
  { destruct H as [H|H]; [done|]. rewrite <- H. symmetry.
    apply process_logs_agree. }
  by apply process_logs_result in H' as (new & -> & Hnew).
Qed.

Lemma accepted_runs_have_two_samples_witness :
  Forall (fun r =>
            exists f, f ∈ glob_sorted sample_dir /\ name r = stem f /\
              HistogramAnalysis.parse_navigation_log sample_dir f
                = Ok (data r) /\
              2 <= length (data r))
    (flat_map (usable_run sample_dir) (glob_sorted sample_dir)).
Proof.
  apply (accepted_runs_have_two_samples sample_dir (glob_sorted sample_dir)
           [] (flat_map (progress sample_dir) (glob_sorted sample_dir))).
  left. vm_compute. reflexivity.
Defined.

Lemma process_logs_raise (fs : directory) (log_files : list string)
    (runs0 : list Run) (tr tr' : list effect) (e : exn) :
  HistogramAnalysis.process_logs fs log_files runs0 tr = (tr', Raise e) ->
  exists f,
    f ∈ log_files /\ HistogramAnalysis.parse_navigation_log fs f = Raise e.
Proof.
  revert runs0 tr. induction log_files as [|f rest IH]; intros runs0 tr.
  - done.
  - rewrite process_logs_cons.
    destruct (HistogramAnalysis.parse_navigation_log fs f) as [d|e'] eqn:E.
    + intros (g & ? & ?)%IH. exists g. split; [by right|done].
    + intros [= _ ->]. exists f. split; [by left|done].
Qed.

Lemma all_xtes_length (r : Run) (rs : list Run) :
  length (data r) <=
  length (flat_map (fun run_data => map xte (data run_data)) (r :: rs)).
Proof. cbn [flat_map]. rewrite length_app, length_map. lia. Qed.

(** X13. [main] of [histogramAnalysis.py] raises only what the parse of
    one of the log files raises, or what the drawing of the histogram
    raises on the error values of at least 2 samples: the report that
    follows the drawing never fails. *)
Theorem histogram_main_raises_only
    (draw_histogram : Numpy.array -> result unit)
    (fs : directory) (e : exn) :
  (HistogramAnalysis.main draw_histogram fs []).2 = Raise e ->
  (exists f, f ∈ glob_sorted fs /\
     HistogramAnalysis.parse_navigation_log fs f = Raise e) \/
  (exists all_xtes, 2 <= length all_xtes /\
     draw_histogram all_xtes = Raise e).
Proof.
  unfold HistogramAnalysis.main, mbind, io_bind, emit.
  destruct (glob_sorted fs) as [|f fl] eqn:G; [done|]. cbn [snd fst].
  destruct (HistogramAnalysis.process_logs _ _ _ _) as [tr1 [runs|e']] eqn:P.
  - apply process_logs_result in P as (new & -> & Hnew).
    destruct new as [|r rs]; [done|]. cbn [app].
    apply Forall_cons in Hnew as [(g & _ & _ & _ & Hr) _].
    unfold HistogramAnalysis.plot_combined_histogram, mbind, io_bind, lift,
      emit, mret, io_ret.
    pose proof (all_xtes_length r rs) as Hlen.
    destruct (draw_histogram _) as [[]|e'] eqn:D.
    + unfold HistogramAnalysis.print_statistics, mbind, io_bind, lift, emit.
      cbn [snd fst]. unfold Numpy.np_abs.
      destruct (flat_map _ (r :: rs)) as [|x xs]; [simpl in Hlen; lia|].
      done.
    + cbn [snd]. intros [= ->]. right. eexists. split; [|exact D]. lia.
  - cbn [snd]. intros [= ->]. left. by apply process_logs_raise in P.
Qed.

Lemma histogram_main_raises_only_witness :
  (exists f, f ∈ glob_sorted {["NavigationLog_1.txt" := log_bad_field]} /\
     HistogramAnalysis.parse_navigation_log
       {["NavigationLog_1.txt" := log_bad_field]} f = Raise ValueError) \/
  (exists all_xtes, 2 <= length all_xtes /\
     (fun _ : Numpy.array => Ok tt) all_xtes = Raise ValueError).
Proof.
  apply (histogram_main_raises_only (fun _ => Ok tt)
           {["NavigationLog_1.txt" := log_bad_field]} ValueError).
  vm_compute. reflexivity.
Defined.

(** X14. [main] of [lineCreator.py] raises only what the parse of one of
    the log files raises, or what [plot_combined_navigation] raises on a
    list of runs that is not empty and whose runs have at least 2
    samples each. *)
Theorem navigation_main_raises_only
    (plot_combined_navigation : list Run -> result unit)
    (fs : directory) (e : exn) :
  (LineCreator.main plot_combined_navigation fs []).2 = Raise e ->
  (exists f, f ∈ glob_sorted fs /\
     LineCreator.parse_navigation_log fs f = Raise e) \/
  (exists runs, runs <> [] /\
     Forall (fun r => 2 <= length (data r)) runs /\
     plot_combined_navigation runs = Raise e).
Proof.
  unfold LineCreator.main, mbind, io_bind, emit.
  destruct (glob_sorted fs) as [|f fl] eqn:G; [done|]. cbn [snd fst].
  rewrite process_logs_agree.
  destruct (HistogramAnalysis.process_logs _ _ _ _) as [tr1 [runs|e']] eqn:P.
  - apply process_logs_result in P as (new & -> & Hnew).
    destruct new as [|r rs]; [done|]. cbn [app].
    unfold lift, mret, io_ret.
    destruct (plot_combined_navigation _) as [[]|e'] eqn:D.
    + by case_bool_decide.
    + cbn [snd]. intros [= ->]. right. exists (r :: rs).
      split_and!; [done| |done].
      eapply Forall_impl; [exact Hnew|]. by intros ? (? & _ & _ & _ & ?).
  - cbn [snd]. intros [= ->]. left.
    apply process_logs_raise in P as (g & ? & ?). exists g.
    split; [done|]. etrans; [apply parse_navigation_log_agree|done].
Qed.

Lemma navigation_main_raises_only_witness :
  (exists f, f ∈ glob_sorted {["NavigationLog_1.txt" := log_bad_field]} /\
     LineCreator.parse_navigation_log
       {["NavigationLog_1.txt" := log_bad_field]} f = Raise ValueError) \/
  (exists runs, runs <> [] /\
     Forall (fun r => 2 <= length (data r)) runs /\
     (fun _ : list Run => Ok tt) runs = Raise ValueError).
Proof.
  apply (navigation_main_raises_only (fun _ => Ok tt)
           {["NavigationLog_1.txt" := log_bad_field]} ValueError).
  vm_compute. reflexivity.
Defined.

Lemma usable_run_short (fs : directory) (f : string) (d : list Sample) :
  HistogramAnalysis.parse_navigation_log fs f = Ok d ->
  length d < 2 -> usable_run fs f = [].
Proof.
  intros E Hlen. unfold usable_run. rewrite E.
  by destruct (Nat.ltb_spec (length d) 2); [|lia].
Qed.

(** X15. When there are log files but every one of them parses to fewer
    than 2 samples, either tool loads them all, prints that no valid
    data was found and returns: nothing is drawn and no figure is
    saved, whatever the drawing function is. *)
Theorem no_usable_run (draw_histogram : Numpy.array -> result unit)
    (plot_combined_navigation : list Run -> result unit)
    (fs : directory) :
  glob_sorted fs <> [] ->
  (forall f, f ∈ glob_sorted fs ->
     exists d, HistogramAnalysis.parse_navigation_log fs f = Ok d /\
               length d < 2) ->
  HistogramAnalysis.main draw_histogram fs [] =
    ([Mkdir "histogram_analysis";
      Print ("Found " +:+ PyStr.of_nat (length (glob_sorted fs))
             +:+ " navigation log files")]
     ++ flat_map (progress fs) (glob_sorted fs)
     ++ [Print "No valid data found for histogram generation."], Ok tt) /\
  LineCreator.main plot_combined_navigation fs [] =
    ([Mkdir "line_plots";
      Print ("Found " +:+ PyStr.of_nat (length (glob_sorted fs))
             +:+ " navigation log files")]
     ++ flat_map (progress fs) (glob_sorted fs)
     ++ [Print "No valid data found for plotting."], Ok tt).
Proof.
  intros Hne Hall.
  assert (flat_map (usable_run fs) (glob_sorted fs) = []) as Hruns.
  { revert Hall. generalize (glob_sorted fs) as l.
    induction l as [|f l IH]; intros Hall; [done|]. cbn [flat_map].
    destruct (Hall f) as (d & E & Hlen); [by left|].
    rewrite (usable_run_short fs f d E Hlen), IH; [done|].
    intros g Hg. apply Hall. by right. }
  assert (forall tr,
            HistogramAnalysis.process_logs fs (glob_sorted fs) [] tr =
            (tr ++ flat_map (progress fs) (glob_sorted fs), Ok [])) as P.
  { intros tr. rewrite process_logs_all_parse, Hruns; [done|].
    intros f (d & E & _)%Hall. by exists d. }
  assert (forall tr,
            LineCreator.process_logs fs (glob_sorted fs) [] tr =
            (tr ++ flat_map (progress fs) (glob_sorted fs), Ok [])) as P'.
  { intros tr. etrans; [apply process_logs_agree|apply P]. }
  unfold HistogramAnalysis.main, LineCreator.main, mbind, io_bind, emit.
  destruct (glob_sorted fs) as [|f fl] eqn:G; [done|].
  split.
  - rewrite P. cbn [app]. by rewrite <- ?app_assoc.
  - rewrite P'. cbn [app]. by rewrite <- ?app_assoc.
Qed.

Lemma no_usable_run_witness :
  HistogramAnalysis.main (fun _ => Ok tt)
    {["NavigationLog_1.txt" := log_one_row]} [] =
    ([Mkdir "histogram_analysis";
      Print ("Found " +:+ PyStr.of_nat
               (length (glob_sorted {["NavigationLog_1.txt" := log_one_row]}))
             +:+ " navigation log files")]
     ++ flat_map (progress {["NavigationLog_1.txt" := log_one_row]})
          (glob_sorted {["NavigationLog_1.txt" := log_one_row]})
     ++ [Print "No valid data found for histogram generation."], Ok tt) /\
  LineCreator.main (fun _ => Ok tt)
    {["NavigationLog_1.txt" := log_one_row]} [] =
    ([Mkdir "line_plots";
      Print ("Found " +:+ PyStr.of_nat
               (length (glob_sorted {["NavigationLog_1.txt" := log_one_row]}))
             +:+ " navigation log files")]
     ++ flat_map (progress {["NavigationLog_1.txt" := log_one_row]})
          (glob_sorted {["NavigationLog_1.txt" := log_one_row]})
     ++ [Print "No valid data found for plotting."], Ok tt).
Proof.
  apply (no_usable_run (fun _ => Ok tt) (fun _ => Ok tt)
           {["NavigationLog_1.txt" := log_one_row]}).
  - vm_compute. discriminate.
  - intros f Hf.
    let l := eval vm_compute in
      (glob_sorted {["NavigationLog_1.txt" := log_one_row]}) in
    change (f ∈ l) in Hf.
    apply list_elem_of_singleton in Hf as ->.
    eexists. split; [vm_compute; reflexivity|simpl; lia].
Defined.

Lemma progress_prints (fs : directory) (log_files : list string) (e : effect) :
  e ∈ flat_map (progress fs) log_files -> exists s, e = Print s.
Proof.
  intros (f & _ & He)%elem_of_flat_map. unfold progress in He.
  apply elem_of_cons in He as [->|He]; [by eexists|].
  destruct (HistogramAnalysis.parse_navigation_log fs f) as [d|];
    [|by apply elem_of_nil in He].
  destruct (length d <? 2); [|by apply elem_of_nil in He].
  apply list_elem_of_singleton in He as ->. by eexists.
Qed.

Lemma usable_runs_two (fs : directory) (log_files : list string) :
  Forall (fun r => 2 <= length (data r))
    (flat_map (usable_run fs) log_files).
Proof.
  apply Forall_forall. intros r (f & _ & Hr)%elem_of_flat_map.
  unfold usable_run in Hr.
  destruct (HistogramAnalysis.parse_navigation_log fs f) as [d|];
    [|by apply elem_of_nil in Hr].
  destruct (Nat.ltb_spec (length d) 2); [by apply elem_of_nil in Hr|].
  by apply list_elem_of_singleton in Hr as ->.
Qed.

(** X16. When every log file parses, at least one of them has 2 samples
    or more and the histogram can be drawn, [main] of
    [histogramAnalysis.py] returns; it saves one figure,
    [histogram_analysis/Combined_XTE_Histogram.png], after all files
    are loaded, and the count, the mean and the standard deviation it
    then reports are those of the error values of all kept runs, in the
    order of the sorted file names. *)
Theorem histogram_main_success (draw_histogram : Numpy.array -> result unit)
    (fs : directory) :
  (forall f, f ∈ glob_sorted fs ->
     exists d, HistogramAnalysis.parse_navigation_log fs f = Ok d) ->
  flat_map (usable_run fs) (glob_sorted fs) <> [] ->
  draw_histogram
    (flat_map (fun r => map xte (data r))
       (flat_map (usable_run fs) (glob_sorted fs))) = Ok tt ->
  exists tr1 tr2,
    HistogramAnalysis.main draw_histogram fs [] =
      (tr1 ++ SaveFig "histogram_analysis/Combined_XTE_Histogram.png" :: tr2,
       Ok tt) /\
    (forall p, SaveFig p ∉ tr1) /\ (forall p, SaveFig p ∉ tr2) /\
    (forall f, f ∈ glob_sorted fs -> Print ("Loading: " +:+ f) ∈ tr1) /\
    Print ("Total data points: " +:+
           PyStr.of_nat
             (length (flat_map (fun r => map xte (data r))
                        (flat_map (usable_run fs) (glob_sorted fs))))) ∈ tr2 /\
    PrintStat "Mean Cross Track Error"
      (Numpy.np_mean
         (flat_map (fun r => map xte (data r))
            (flat_map (usable_run fs) (glob_sorted fs)))) ∈ tr2 /\
    PrintStat "Std deviation"
      (Numpy.np_std
         (flat_map (fun r => map xte (data r))
            (flat_map (usable_run fs) (glob_sorted fs)))) ∈ tr2.
Proof.
  intros Hall Hne Hdraw.
  pose proof (usable_runs_two fs (glob_sorted fs)) as Htwo.
  unfold HistogramAnalysis.main, mbind, io_bind, emit.
  destruct (glob_sorted fs) as [|f fl] eqn:G; [done|].
  rewrite process_logs_all_parse by done.
  destruct (flat_map (usable_run fs) (f :: fl)) as [|r rs] eqn:R; [done|].
  cbn [app]. apply Forall_cons in Htwo as [Hr _].
  pose proof (all_xtes_length r rs) as Hlen.
  unfold HistogramAnalysis.plot_combined_histogram, mbind, io_bind, lift,
    emit, mret, io_ret.
  rewrite Hdraw.
  unfold HistogramAnalysis.print_statistics, mbind, io_bind, lift, emit.
  destruct (flat_map _ (r :: rs)) as [|x xs] eqn:X; [simpl in Hlen; lia|].
  change (Numpy.np_max (Numpy.np_abs (x :: xs)))
    with (Ok (fold_left Numpy.maximum (map Float64.abs xs) (Float64.abs x))).
  cbv iota beta.
  eexists (_ :: _ :: flat_map (progress fs) (f :: fl) ++ [_]), _.
  split; [rewrite <- !app_assoc; cbn [app]; reflexivity|].
  split_and!.
  - intros p [?|[?|[Hp|Hp]%elem_of_app]%elem_of_cons]%elem_of_cons;
      try done.
    + by apply progress_prints in Hp as [? ?].
    + by apply list_elem_of_singleton in Hp.
  - intros p Hp. repeat (apply elem_of_cons in Hp as [?|Hp]; [done|]).
    by apply elem_of_nil in Hp.
  - intros g Hg. do 2 right. apply elem_of_app. left.
    apply elem_of_flat_map. exists g. split; [done|]. by left.
  - do 4 right. by left.
  - do 5 right. by left.
  - do 7 right. by left.
Qed.

Lemma histogram_main_success_witness :
  exists tr1 tr2,
    HistogramAnalysis.main (fun _ => Ok tt) sample_dir [] =
      (tr1 ++ SaveFig "histogram_analysis/Combined_XTE_Histogram.png" :: tr2,
       Ok tt) /\
    (forall p, SaveFig p ∉ tr1) /\ (forall p, SaveFig p ∉ tr2) /\
    (forall f, f ∈ glob_sorted sample_dir ->
       Print ("Loading: " +:+ f) ∈ tr1) /\
    Print ("Total data points: " +:+
           PyStr.of_nat
             (length (flat_map (fun r => map xte (data r))
                        (flat_map (usable_run sample_dir)
                           (glob_sorted sample_dir))))) ∈ tr2 /\
    PrintStat "Mean Cross Track Error"
      (Numpy.np_mean
         (flat_map (fun r => map xte (data r))
            (flat_map (usable_run sample_dir) (glob_sorted sample_dir))))
      ∈ tr2 /\
    PrintStat "Std deviation"
      (Numpy.np_std
         (flat_map (fun r => map xte (data r))
            (flat_map (usable_run sample_dir) (glob_sorted sample_dir))))
      ∈ tr2.
Proof.
  apply (histogram_main_success (fun _ => Ok tt) sample_dir).
  - intros f Hf.
    let l := eval vm_compute in (glob_sorted sample_dir) in
    change (f ∈ l) in Hf.
    apply elem_of_cons in Hf as [->|Hf];
      [eexists; vm_compute; reflexivity|].
    apply elem_of_cons in Hf as [->|Hf];
      [eexists; vm_compute; reflexivity|].
    by apply elem_of_nil in Hf.
  - vm_compute. discriminate.
  - reflexivity.
Defined.

(** ** The report *)

(** The run of [main] of [histogramAnalysis.py] when every log parses
    and the histogram is drawn: the five statistics of the report are
    printed once, one after the other, for the array [kept_xtes]. *)
Lemma histogram_main_trace (draw_histogram : Numpy.array -> result unit)
    (fs : directory) :
  (forall f, f ∈ glob_sorted fs ->
     exists d, HistogramAnalysis.parse_navigation_log fs f = Ok d) ->
  kept_xtes fs <> [] ->
  draw_histogram (kept_xtes fs) = Ok tt ->
  exists (m : Float64.float) (tr1 tr3 : list effect),
    HistogramAnalysis.main draw_histogram fs [] =
      (tr1 ++
       [PrintStat "Mean Cross Track Error" (Numpy.np_mean (kept_xtes fs));
        PrintStat "Mean |Cross Track Error|"
          (Numpy.np_mean (Numpy.np_abs (kept_xtes fs)));
        PrintStat "Std deviation" (Numpy.np_std (kept_xtes fs));
        PrintStat "Max |Cross Track Error|" m;
        PrintStat "95th percentile |Cross Track Error|"
          (Numpy.np_percentile (Numpy.np_abs (kept_xtes fs)) 95)] ++ tr3,
       Ok tt) /\
    Numpy.np_max (Numpy.np_abs (kept_xtes fs)) = Ok m /\
    (forall e, e ∈ tr1 ++ tr3 -> forall l v, e <> PrintStat l v).
Proof.
  intros Hall Hne Hdraw. unfold kept_xtes in *.
  unfold HistogramAnalysis.main, mbind, io_bind, emit.
  destruct (glob_sorted fs) as [|f fl] eqn:G; [done|].
  rewrite process_logs_all_parse by done.
  destruct (flat_map (usable_run fs) (f :: fl)) as [|r rs] eqn:R; [done|].
  cbn [app].
  unfold HistogramAnalysis.plot_combined_histogram, mbind, io_bind, lift,
    emit, mret, io_ret.
  rewrite Hdraw.
  unfold HistogramAnalysis.print_statistics, mbind, io_bind, lift, emit.
  destruct (flat_map _ (r :: rs)) as [|x xs] eqn:X; [done|].
  change (Numpy.np_max (Numpy.np_abs (x :: xs)))
    with (Ok (fold_left Numpy.maximum (map Float64.abs xs) (Float64.abs x))).
  cbv iota beta.
  eexists _, (_ :: _ :: flat_map (progress fs) (f :: fl)
                ++ [_; _; _; _; _; _; _]), [_; _].
  split; [rewrite <- !app_assoc; cbn [app]; rewrite <- !app_assoc; reflexivity|].
  split; [done|].
  intros e He l v ->.
  apply elem_of_app in He as [He|He].
  - apply elem_of_cons in He as [?|He]; [done|].
    apply elem_of_cons in He as [?|He]; [done|].
    apply elem_of_app in He as [He|He].
    + by apply progress_prints in He as [? ?].
    + repeat (apply elem_of_cons in He as [?|He]; [done|]).
      by apply elem_of_nil in He.
  - repeat (apply elem_of_cons in He as [?|He]; [done|]).
    by apply elem_of_nil in He.
Qed.

Lemma report_line (tr1 tr3 : list effect) (stats : list effect)
    (label : string) (v : Float64.float):
  (forall e, e ∈ tr1 ++ tr3 -> forall l v, e <> PrintStat l v) ->
  PrintStat label v ∈ tr1 ++ stats ++ tr3 <-> PrintStat label v ∈ stats.
Proof.
  intros Hno. rewrite !elem_of_app. split; [|tauto].
  intros [H|[H|H]]; [|done|]; exfalso;
    eapply (Hno (PrintStat label v)); try reflexivity;
    apply elem_of_app; eauto.
Qed.

Lemma elem_of_Zrange (lo z : Z) (n : nat) :
  (lo <= z < lo + Z.of_nat n)%Z -> In z (Zrange lo n).
Proof.
  intros H. unfold Zrange. apply in_map_iff. exists (Z.to_nat (z - lo)).
  split; [lia|]. apply in_seq. lia.
Qed.

(** In binary64 the sums, the mean, the squares and the root are exact
    on these small integers. *)
Lemma std_of_pairs (r : nat) (c k : Z) :
  1 <= r <= 8 -> (-25 <= c <= 25)%Z -> (0 <= k <= 50)%Z ->
  Numpy.np_std
    (concat (replicate r [Float64.of_Z (c - k); Float64.of_Z (c + k)]))
  = Float64.of_Z k.
Proof.
  intros Hr Hc Hk.
  assert (forallb
            (fun r => forallb
               (fun c => forallb
                  (fun k => bool_decide
                     (Numpy.np_std
                        (concat (replicate r [Float64.of_Z (c - k);
                                              Float64.of_Z (c + k)]))
                      = Float64.of_Z k))
                  (Zrange 0 51))
               (Zrange (-25) 51))
            (seq 1 8) = true) as H by (vm_compute; reflexivity).
  rewrite forallb_forall in H.
  specialize (H r ltac:(apply in_seq; lia)).
  rewrite forallb_forall in H.
  specialize (H c (elem_of_Zrange (-25) c 51 ltac:(lia))).
  rewrite forallb_forall in H.
  specialize (H k (elem_of_Zrange 0 k 51 ltac:(lia))).
  by apply bool_decide_eq_true in H.
Qed.

(** C6. The standard deviation that [main] reports is the population
    standard deviation, with the full count as divisor. When the error
    values of the kept runs are [r] times the two integers [c - k] and
    [c + k], whose deviations from the mean [c] are [-k] and [k], the
    line "Std deviation" of the report shows [k] and nothing else; a
    divisor of count minus one would give more than [k]. For the two
    values -1 and 1 this is exactly 1.0. *)
Theorem std_is_population (draw_histogram : Numpy.array -> result unit)
    (fs : directory) (r : nat) (c k : Z) (v : Float64.float) :
  (forall f, f ∈ glob_sorted fs ->
     exists d, HistogramAnalysis.parse_navigation_log fs f = Ok d) ->
  draw_histogram (kept_xtes fs) = Ok tt ->
  kept_xtes fs =
    concat (replicate r [Float64.of_Z (c - k); Float64.of_Z (c + k)]) ->
  1 <= r <= 8 -> (-25 <= c <= 25)%Z -> (0 <= k <= 50)%Z ->
  PrintStat "Std deviation" v
    ∈ (HistogramAnalysis.main draw_histogram fs []).1 <->
  v = Float64.of_Z k.
Proof.
  intros Hall Hdraw Hxs Hr Hc Hk.
  destruct (histogram_main_trace draw_histogram fs Hall) as
    (m & tr1 & tr3 & -> & _ & Hno); [|done|].
  { rewrite Hxs. destruct r; [lia|done]. }
  cbn [fst]. rewrite (report_line _ _ _ _ _ Hno), Hxs, std_of_pairs by done.
  split.
  - intros H. repeat (apply elem_of_cons in H as [H|H]; [by inversion H|]).
    by apply elem_of_nil in H.
  - intros ->. do 2 right. by left.
Qed.

Lemma std_is_population_witness :
  PrintStat "Std deviation" (Float64.of_Z 1)
    ∈ (HistogramAnalysis.main (fun _ => Ok tt) unit_dir []).1 <->
  Float64.of_Z 1 = Float64.of_Z 1.
Proof.
  apply (std_is_population (fun _ => Ok tt) unit_dir 1 0 1).
  - intros f Hf.
    let l := eval vm_compute in (glob_sorted unit_dir) in
    change (f ∈ l) in Hf.
    apply elem_of_cons in Hf as [->|Hf];
      [eexists; vm_compute; reflexivity|].
    by apply elem_of_nil in Hf.
  - reflexivity.
  - vm_compute. reflexivity.
  - lia.
  - lia.
  - lia.
Defined.

Lemma abs_abs (x : Float64.float) :
  Float64.abs (Float64.abs x) = Float64.abs x.
Proof. by destruct x. Qed.

Lemma np_percentile_abs_perm (a b : Numpy.array) (q : Z) :
  Numpy.np_abs a ≡ₚ Numpy.np_abs b ->
  Numpy.np_percentile (Numpy.np_abs a) q =
  Numpy.np_percentile (Numpy.np_abs b) q.
Proof.
  intros Hp.
  assert (forall l, Numpy.np_abs (Numpy.np_abs l) = Numpy.np_abs l) as Hidem.
  { intros l. unfold Numpy.np_abs. rewrite map_map.
    apply map_ext. intros x. apply abs_abs. }
  unfold Numpy.np_percentile.
  rewrite (Permutation_length Hp).
  rewrite <- (Hidem a), <- (Hidem b).
  by rewrite (np_sort_abs_perm _ _ Hp).
Qed.

(** C7. The 95th percentile that [main] reports is taken over the
    absolute values, put in order, by linear interpolation between the
    two that stand around rank [0.95 * (n - 1)]: whenever the absolute
    error values of the kept runs are 0, 1, ..., 99, in any order and
    with any signs, the line "95th percentile |Cross Track Error|" of
    the report shows the float [94.05] and nothing else. *)
Theorem percentile_95_of_0_to_99
    (draw_histogram : Numpy.array -> result unit)
    (fs : directory) (v : Float64.float) :
  (forall f, f ∈ glob_sorted fs ->
     exists d, HistogramAnalysis.parse_navigation_log fs f = Ok d) ->
  draw_histogram (kept_xtes fs) = Ok tt ->
  Numpy.np_abs (kept_xtes fs) ≡ₚ zero_to_99 ->
  PrintStat "95th percentile |Cross Track Error|" v
    ∈ (HistogramAnalysis.main draw_histogram fs []).1 <->
  Ok v = py_float "94.05".
Proof.
  intros Hall Hdraw Hp.
  destruct (histogram_main_trace draw_histogram fs Hall) as
    (m & tr1 & tr3 & -> & _ & Hno); [|done|].
  { intros E. rewrite E in Hp. by apply Permutation_nil_l in Hp. }
  cbn [fst]. rewrite (report_line _ _ _ _ _ Hno).
  change zero_to_99 with (Numpy.np_abs zero_to_99) in Hp.
  rewrite (np_percentile_abs_perm _ _ 95 Hp).
  assert (Ok (Numpy.np_percentile (Numpy.np_abs zero_to_99) 95)
          = py_float "94.05") as <- by (by vm_compute).
  generalize (Numpy.np_percentile (Numpy.np_abs zero_to_99) 95). intros p.
  split.
  - intros H.
    repeat (apply elem_of_cons in H as [H|H]; [by inversion H|]).
    by apply elem_of_nil in H.
  - intros [= ->]. do 4 right. by left.
Qed.

Lemma percentile_95_of_0_to_99_witness :
  PrintStat "95th percentile |Cross Track Error|"
    (default Float64.nan (PyStr.float "94.05"))
    ∈ (HistogramAnalysis.main (fun _ => Ok tt) hundred_dir []).1 <->
  Ok (default Float64.nan (PyStr.float "94.05")) = py_float "94.05".
Proof.
  apply (percentile_95_of_0_to_99 (fun _ => Ok tt) hundred_dir).
  - intros f Hf.
    let l := eval vm_compute in (glob_sorted hundred_dir) in
    change (f ∈ l) in Hf.
    apply elem_of_cons in Hf as [->|Hf];
      [eexists; vm_compute; reflexivity|].
    apply elem_of_cons in Hf as [->|Hf];
      [eexists; vm_compute; reflexivity|].
    by apply elem_of_nil in Hf.
  - reflexivity.
  - let l := eval vm_compute in (Numpy.np_abs (kept_xtes hundred_dir)) in
    change (l ≡ₚ zero_to_99).
    let r := eval vm_compute in zero_to_99 in
    match goal with |- ?l ≡ₚ _ => change (l ≡ₚ r) end.
    apply (bool_decide_unpack _). vm_compute. exact I.
Defined.

(** X17. When every log file parses, at least one of them has 2 samples
    or more and the runs can be plotted, [main] of [lineCreator.py]
    returns and saves one figure, [line_plots/Combined_All_Runs.png];
    a file that is already there under this name is deleted first, and
    nothing is deleted otherwise. *)
Theorem navigation_main_success
    (plot_combined_navigation : list Run -> result unit) (fs : directory) :
  (forall f, f ∈ glob_sorted fs ->
     exists d, HistogramAnalysis.parse_navigation_log fs f = Ok d) ->
  flat_map (usable_run fs) (glob_sorted fs) <> [] ->
  plot_combined_navigation (flat_map (usable_run fs) (glob_sorted fs))
    = Ok tt ->
  exists tr1 tr2,
    LineCreator.main plot_combined_navigation fs [] =
      (tr1
       ++ (if bool_decide (is_Some (fs !! "line_plots/Combined_All_Runs.png"))
           then [Unlink "line_plots/Combined_All_Runs.png";
                 Print "Deleted old plot file"]
           else [])
       ++ SaveFig "line_plots/Combined_All_Runs.png" :: tr2,
       Ok tt) /\
    (forall p, (SaveFig p ∉ tr1) /\ (Unlink p ∉ tr1)) /\
    (forall p, (SaveFig p ∉ tr2) /\ (Unlink p ∉ tr2)).
Proof.
  intros Hall Hne Hplot.
  unfold LineCreator.main, mbind, io_bind, emit.
  destruct (glob_sorted fs) as [|f fl] eqn:G; [done|].
  assert (LineCreator.process_logs fs (f :: fl) []
            ([] ++ [Mkdir LineCreator.output_dir]
             ++ [Print ("Found " +:+ PyStr.of_nat (length (f :: fl))
                        +:+ " navigation log files")]) =
          ([Mkdir LineCreator.output_dir;
            Print ("Found " +:+ PyStr.of_nat (length (f :: fl))
                   +:+ " navigation log files")]
           ++ flat_map (progress fs) (f :: fl),
           Ok (flat_map (usable_run fs) (f :: fl)))) as P.
  { etrans; [apply process_logs_agree|].
    by rewrite process_logs_all_parse. }
  cbn [app] in P |- *. rewrite P.
  destruct (flat_map (usable_run fs) (f :: fl)) as [|r rs] eqn:R; [done|].
  unfold lift, mret, io_ret. rewrite Hplot.
  change LineCreator.output_file with "line_plots/Combined_All_Runs.png".
  eexists (_ :: _ :: flat_map (progress fs) (f :: fl) ++ [_]), _.
  split.
  { case_bool_decide; cbn [app]; rewrite <- ?app_assoc; cbn [app];
      reflexivity. }
  split.
  - intros p. split.
    all: intros [?|[?|[Hp|Hp]%elem_of_app]%elem_of_cons]%elem_of_cons;
      try done;
      [by apply progress_prints in Hp as [? ?]
      |by apply list_elem_of_singleton in Hp].
  - intros p. split; intros Hp;
      repeat (apply elem_of_cons in Hp as [?|Hp]; [done|]);
      by apply elem_of_nil in Hp.
Qed.

Lemma navigation_main_success_witness :
  exists tr1 tr2,
    LineCreator.main (fun _ => Ok tt)
      (<["line_plots/Combined_All_Runs.png" := "old"]> sample_dir) [] =
      (tr1
       ++ (if bool_decide
                (is_Some
                   ((<["line_plots/Combined_All_Runs.png" := "old"]>
                       sample_dir)
                    !! "line_plots/Combined_All_Runs.png"))
           then [Unlink "line_plots/Combined_All_Runs.png";
                 Print "Deleted old plot file"]
           else [])
       ++ SaveFig "line_plots/Combined_All_Runs.png" :: tr2,
       Ok tt) /\
    (forall p, (SaveFig p ∉ tr1) /\ (Unlink p ∉ tr1)) /\
    (forall p, (SaveFig p ∉ tr2) /\ (Unlink p ∉ tr2)).
Proof.
  apply (navigation_main_success (fun _ => Ok tt)
           (<["line_plots/Combined_All_Runs.png" := "old"]> sample_dir)).
  - intros f Hf.
    let l := eval vm_compute in
      (glob_sorted
         (<["line_plots/Combined_All_Runs.png" := "old"]> sample_dir)) in
    change (f ∈ l) in Hf.
    apply elem_of_cons in Hf as [->|Hf];
      [eexists; vm_compute; reflexivity|].
    apply elem_of_cons in Hf as [->|Hf];
      [eexists; vm_compute; reflexivity|].
    by apply elem_of_nil in Hf.
  - vm_compute. discriminate.
  - reflexivity.
Defined.

(** ** More on the statistics *)

Lemma sort_le_leb (x m : Float64.float) :
  Numpy.sort_le x m -> Float64.isnan m = false -> Float64.leb x m = true.
Proof.
  unfold Numpy.sort_le. intros H Hm.
  pose proof (maximum_test m x) as T. rewrite H, Hm, orb_false_r in T.
  exact T.
Qed.

(** X18. On an array that is not empty, [np.max(np.abs(a))] returns one
    of the absolute values, and unless that is a NaN every absolute
    value is less than or equal to it. *)
Theorem max_abs_is_greatest (a : Numpy.array) :
  a <> [] ->
  exists m,
    Numpy.np_max (Numpy.np_abs a) = Ok m /\
    m ∈ Numpy.np_abs a /\
    (Float64.isnan m = false ->
     forall x, x ∈ a -> Float64.leb (Float64.abs x) m = true).
Proof.
  intros Hne.
  destruct a as [|x a]; [done|]. cbn [Numpy.np_abs map Numpy.np_max].
  destruct (fold_maximum_greatest (map Float64.abs a) (Float64.abs x))
    as [Hin Hge].
  eexists. split; [done|]. split; [done|].
  intros Hm y Hy. apply sort_le_leb; [|done]. apply Hge.
  change (Float64.abs y ∈ map Float64.abs (x :: a)).
  apply list_elem_of_In, in_map, list_elem_of_In, Hy.
Qed.

Lemma max_abs_is_greatest_witness :
  exists m,
    Numpy.np_max (Numpy.np_abs readings) = Ok m /\
    m ∈ Numpy.np_abs readings /\
    (Float64.isnan m = false ->
     forall x, x ∈ readings -> Float64.leb (Float64.abs x) m = true).
Proof.
  apply (max_abs_is_greatest readings). vm_compute. discriminate.
Defined.

(** ** Binary64 arithmetic *)

Section Binary64.
Local Open Scope Z_scope.

Lemma digits2_size (p : positive) : digits2_pos p = Pos.size p.
Proof. induction p as [p IH|p IH|]; simpl; by rewrite ?IH. Qed.

Lemma digits2_bounds (p : positive) :
  2 ^ (Z.pos (digits2_pos p) - 1) <= Z.pos p < 2 ^ Z.pos (digits2_pos p).
Proof.
  rewrite digits2_size. split.
  - pose proof (Pos.size_le p) as H.
    apply Pos2Z.pos_le_pos in H. rewrite Pos2Z.inj_pow in H.
    replace (Z.pos (Pos.size p)) with (Z.succ (Z.pos (Pos.size p) - 1)) in H
      by lia.
    rewrite Z.pow_succ_r in H by lia. lia.
  - pose proof (Pos.size_gt p) as H.
    apply Pos2Z.pos_lt_pos in H. by rewrite Pos2Z.inj_pow in H.
Qed.

Lemma Zdigits2_bounds (m : Z) :
  0 < m -> 2 ^ (Zdigits2 m - 1) <= m < 2 ^ Zdigits2 m.
Proof. destruct m as [|p|p]; [lia| |lia]. intros _. apply digits2_bounds. Qed.

Lemma Zdigits2_unique (m d : Z) :
  2 ^ (d - 1) <= m < 2 ^ d -> 0 < d -> Zdigits2 m = d.
Proof.
  intros [H1 H2] Hd.
  assert (0 < m) as Hm by (pose proof (Z.pow_pos_nonneg 2 (d - 1)); lia).
  destruct (Zdigits2_bounds m Hm) as [B1 B2].
  assert (0 < Zdigits2 m) by (destruct m; simpl; lia).
  destruct (Z.lt_trichotomy (Zdigits2 m) d) as [L|[E|G]]; [|done|].
  - assert (2 ^ Zdigits2 m <= 2 ^ (d - 1)) by (apply Z.pow_le_mono_r; lia).
    lia.
  - assert (2 ^ d <= 2 ^ (Zdigits2 m - 1)) by (apply Z.pow_le_mono_r; lia).
    lia.
Qed.

Lemma Zdigits2_nonneg (m : Z) : 0 <= Zdigits2 m.
Proof. destruct m; simpl; lia. Qed.

Lemma Zdigits2_mono (m n : Z) : 0 <= m <= n -> Zdigits2 m <= Zdigits2 n.
Proof.
  intros [H0 H].
  destruct (Z.eq_dec m 0) as [->|Hm]; [apply Zdigits2_nonneg|].
  destruct (Zdigits2_bounds m) as [B1 B2]; [lia|].
  destruct (Zdigits2_bounds n) as [C1 C2]; [lia|].
  destruct (Z.le_gt_cases (Zdigits2 m) (Zdigits2 n)) as [|G]; [done|].
  assert (2 ^ Zdigits2 n <= 2 ^ (Zdigits2 m - 1))
    by (apply Z.pow_le_mono_r; lia).
  lia.
Qed.

Lemma pow2_xO (k : positive) : 2 ^ Z.pos k~0 = 2 ^ Z.pos k * 2 ^ Z.pos k.
Proof.
  assert (Z.pos k~0 = Z.pos k + Z.pos k) as -> by lia.
  apply Z.pow_add_r; lia.
Qed.

Lemma pow2_xI (k : positive) :
  2 ^ Z.pos k~1 = 2 * (2 ^ Z.pos k * 2 ^ Z.pos k).
Proof.
  assert (Z.pos k~1 = Z.succ (Z.pos k~0)) as -> by lia.
  rewrite Z.pow_succ_r by lia. by rewrite pow2_xO.
Qed.

Lemma shr_1_m (mrs : shr_record) :
  0 <= shr_m mrs -> shr_m (shr_1 mrs) = shr_m mrs / 2.
Proof.
  destruct mrs as [m r s]. simpl. intros Hm.
  destruct m as [|[p|p|]|p]; cbn [shr_1 shr_m]; try done; try lia;

    [apply Z.div_unique with 1; lia|apply Z.div_unique with 0; lia].
Qed.

Lemma iter_shr_1_m (k : positive) (mrs : shr_record) :
  0 <= shr_m mrs ->
  shr_m (SpecFloat.iter_pos shr_1 k mrs) = shr_m mrs / 2 ^ Z.pos k.
Proof.
  revert mrs. induction k as [k IH|k IH|]; intros mrs Hm; cbn [SpecFloat.iter_pos].
  - assert (0 <= shr_m (shr_1 mrs)) by (rewrite shr_1_m by done; apply Z.div_pos; lia).
    assert (0 <= shr_m (SpecFloat.iter_pos shr_1 k (shr_1 mrs)))
      by (rewrite IH by done; apply Z.div_pos; [done|apply Z.pow_pos_nonneg; lia]).
    rewrite !IH, shr_1_m by done.
    rewrite !Z.div_div by (try apply Z.pow_pos_nonneg; lia).
    f_equal. rewrite pow2_xI. ring.
  - assert (0 <= shr_m (SpecFloat.iter_pos shr_1 k mrs))
      by (rewrite IH by done; apply Z.div_pos; [done|apply Z.pow_pos_nonneg; lia]).
    rewrite !IH by done.
    rewrite !Z.div_div by (try apply Z.pow_pos_nonneg; lia).
    f_equal. by rewrite pow2_xO.
  - by rewrite shr_1_m.
Qed.

Lemma fexp64 (e : Z) : fexp Float64.prec Float64.emax e = Z.max (e - 53) (-1074).
Proof. reflexivity. Qed.

Lemma shr_record_of_loc_m (m : Z) (l : location) :
  shr_m (shr_record_of_loc m l) = m.
Proof. by destruct l as [|[]]. Qed.

(** What [shr_fexp] does to a mantissa that is not negative, at an
    exponent from which no shift to the left would be needed. *)
Lemma shr_fexp_spec (m e : Z) (l : location) :
  0 <= m ->
  e <= fexp Float64.prec Float64.emax (Zdigits2 m + e) ->
  let e' := fexp Float64.prec Float64.emax (Zdigits2 m + e) in
  snd (shr_fexp Float64.prec Float64.emax m e l) = e' /\
  shr_m (fst (shr_fexp Float64.prec Float64.emax m e l)) = m / 2 ^ (e' - e).
Proof.
  intros Hm He e'. unfold shr_fexp, shr. fold e'.
  destruct (e' - e) as [|k|k] eqn:K; try lia.
  - cbn [fst snd]. rewrite shr_record_of_loc_m, Z.div_1_r. split; lia.
  - cbn [fst snd]. split; [lia|].
    rewrite iter_shr_1_m; by rewrite shr_record_of_loc_m.
Qed.

Lemma div_pow2_digits (m n : Z) :
  0 < m -> 0 <= n < Zdigits2 m ->
  0 < m / 2 ^ n /\ Zdigits2 (m / 2 ^ n) = Zdigits2 m - n.
Proof.
  intros Hm Hn. destruct (Zdigits2_bounds m Hm) as [B1 B2].
  assert (0 < 2 ^ n) as Hp by (apply Z.pow_pos_nonneg; lia).
  assert (2 ^ (Zdigits2 m - n - 1) <= m / 2 ^ n < 2 ^ (Zdigits2 m - n))
    as [C1 C2].
  { split.
    - apply Z.div_le_lower_bound; [done|].
      rewrite <- Z.pow_add_r by lia.
      by replace (n + (Zdigits2 m - n - 1)) with (Zdigits2 m - 1) by lia.
    - apply Z.div_lt_upper_bound; [done|].
      rewrite <- Z.pow_add_r by lia.
      by replace (n + (Zdigits2 m - n)) with (Zdigits2 m) by lia. }
  assert (0 < 2 ^ (Zdigits2 m - n - 1)) by (apply Z.pow_pos_nonneg; lia).
  split; [lia|]. apply Zdigits2_unique; [done|lia].
Qed.

Lemma div_pow2_zero (m n : Z) :
  0 <= m -> Zdigits2 m <= n -> m / 2 ^ n = 0.
Proof.
  intros Hm Hn. destruct (Z.eq_dec m 0) as [->|Hne].
  { apply Z.div_0_l. pose proof (Zdigits2_nonneg 0).
    assert (0 < 2 ^ n) by (apply Z.pow_pos_nonneg; simpl in *; lia). lia. }
  destruct (Zdigits2_bounds m) as [B1 B2]; [lia|].
  pose proof (Zdigits2_nonneg m).
  apply Z.div_small. split; [done|].
  assert (2 ^ Zdigits2 m <= 2 ^ n) by (apply Z.pow_le_mono_r; lia). lia.
Qed.

(** After the shift the pair is in canonical form, or the mantissa is
    zero at the least exponent. *)
Lemma shr_fexp_canonical (m e : Z) (l : location) :
  0 <= m -> -1074 <= e ->
  e <= fexp Float64.prec Float64.emax (Zdigits2 m + e) ->
  let m' := shr_m (fst (shr_fexp Float64.prec Float64.emax m e l)) in
  let e' := snd (shr_fexp Float64.prec Float64.emax m e l) in
  -1074 <= e' /\
  (0 < m' /\ fexp Float64.prec Float64.emax (Zdigits2 m' + e') = e' \/
   m' = 0 /\ e' = -1074).
Proof.
  intros Hm Hemin He. cbv zeta.
  destruct (shr_fexp_spec m e l Hm He) as [-> ->].
  pose proof (fexp64 (Zdigits2 m + e)) as F.
  set (e' := fexp Float64.prec Float64.emax (Zdigits2 m + e)) in *.
  split; [lia|].
  destruct (Z.eq_dec m 0) as [->|Hne].
  { right. cbn in F. split; [|lia]. apply Z.div_0_l.
    assert (0 < 2 ^ (e' - e)) by (apply Z.pow_pos_nonneg; lia). lia. }
  destruct (Z.lt_ge_cases (e' - e) (Zdigits2 m)) as [Hlt|Hge].
  - left. destruct (div_pow2_digits m (e' - e)) as [P D]; [lia|lia|].
    split; [done|]. rewrite D, fexp64. lia.
  - right. split; [apply div_pow2_zero; lia|]. lia.
Qed.

Lemma round_nearest_even_bounds (m : Z) (l : location) :
  m <= round_nearest_even m l <= m + 1.
Proof.
  unfold round_nearest_even. destruct l as [|[]]; try lia.
  destruct (Z.even m); lia.
Qed.

(** [binary_round_aux] yields a valid float. *)
Lemma binary_round_aux_valid (s : bool) (m e : Z) (l : location) :
  0 <= m -> -1074 <= e ->
  e <= fexp Float64.prec Float64.emax (Zdigits2 m + e) ->
  valid_binary Float64.prec Float64.emax
    (binary_round_aux Float64.prec Float64.emax s m e l) = true.
Proof.
  intros Hm Hemin He. unfold binary_round_aux.
  pose proof (shr_fexp_canonical m e l Hm Hemin He) as [He1 H1].
  destruct (shr_fexp Float64.prec Float64.emax m e l) as [mrs1 e1].
  cbn [fst snd] in *.
  pose proof (round_nearest_even_bounds (shr_m mrs1) (loc_of_shr_record mrs1))
    as Hr.
  set (m2 := round_nearest_even (shr_m mrs1) (loc_of_shr_record mrs1)) in *.
  assert (0 <= m2) as Hm2 by lia.
  assert (e1 <= fexp Float64.prec Float64.emax (Zdigits2 m2 + e1)) as He2.
  { rewrite fexp64. destruct H1 as [[P C]|[Z0 E0]]; [|lia].
    rewrite fexp64 in C.
    pose proof (Zdigits2_mono (shr_m mrs1) m2). lia. }
  pose proof (shr_fexp_canonical m2 e1 loc_Exact Hm2 He1 He2) as [He3 H3].
  destruct (shr_fexp Float64.prec Float64.emax m2 e1 loc_Exact) as [mrs3 e3].
  cbn [fst snd] in *.
  destruct (shr_m mrs3) as [|p|p] eqn:M3; [done| |done].
  destruct (Z.leb_spec e3 (Float64.emax - Float64.prec)) as [Hle|]; [|done].
  cbn [valid_binary]. unfold bounded, canonical_mantissa.
  destruct H3 as [[_ C]|[? _]]; [|done].
  apply andb_true_iff. split; [by apply Z.eqb_eq|by apply Z.leb_le].
Qed.

Lemma shr_fexp_pos (m e : Z) (l : location) :
  0 < m -> -1074 <= e ->
  e <= fexp Float64.prec Float64.emax (Zdigits2 m + e) ->
  0 < shr_m (fst (shr_fexp Float64.prec Float64.emax m e l)).
Proof.
  intros Hm Hemin He.
  destruct (shr_fexp_canonical m e l) as [_ [[P _]|[Z0 E0]]];
    [lia|done|done|done|].
  destruct (shr_fexp_spec m e l) as [S1 S2]; [lia|done|].
  rewrite S1 in E0. rewrite S2, E0 in Z0.
  replace (-1074 - e) with 0 in Z0 by lia. rewrite Z.div_1_r in Z0. lia.
Qed.

(** With a mantissa that is positive the result is not a zero. *)
Lemma binary_round_aux_nonzero (s : bool) (m e : Z) (l : location) :
  0 < m -> -1074 <= e ->
  e <= fexp Float64.prec Float64.emax (Zdigits2 m + e) ->
  forall z, binary_round_aux Float64.prec Float64.emax s m e l <> S754_zero z.
Proof.
  intros Hm Hemin He z. unfold binary_round_aux.
  pose proof (shr_fexp_canonical m e l (Z.lt_le_incl _ _ Hm) Hemin He)
    as [He1 H1].
  pose proof (shr_fexp_pos m e l Hm Hemin He) as P1.
  destruct (shr_fexp Float64.prec Float64.emax m e l) as [mrs1 e1].
  cbn [fst snd] in *.
  pose proof (round_nearest_even_bounds (shr_m mrs1) (loc_of_shr_record mrs1))
    as Hr.
  set (m2 := round_nearest_even (shr_m mrs1) (loc_of_shr_record mrs1)) in *.
  assert (e1 <= fexp Float64.prec Float64.emax (Zdigits2 m2 + e1)) as He2.
  { rewrite fexp64. destruct H1 as [[P C]|[Z0 E0]]; [|lia].
    rewrite fexp64 in C.
    pose proof (Zdigits2_mono (shr_m mrs1) m2). lia. }
  pose proof (shr_fexp_pos m2 e1 loc_Exact) as P3.
  destruct (shr_fexp Float64.prec Float64.emax m2 e1 loc_Exact) as [mrs3 e3].
  cbn [fst snd] in *.
  destruct (shr_m mrs3) as [|p|p]; [lia| |done].
  by destruct (Z.leb e3 (Float64.emax - Float64.prec)).
Qed.

Lemma pos_iter_xO (m d : positive) :
  Z.pos (Pos.iter xO m d) = Z.pos m * 2 ^ Z.pos d.
Proof.
  induction d as [|d IH] using Pos.peano_ind.
  - simpl. lia.
  - rewrite Pos.iter_succ, Pos2Z.inj_xO, IH, Pos2Z.inj_succ,
      Z.pow_succ_r by lia. ring.
Qed.

Lemma shl_align_spec (mx : positive) (ex ex' : Z) :
  Z.pos (fst (shl_align mx ex ex')) =
    Z.pos mx * 2 ^ (ex - Z.min ex ex') /\
  snd (shl_align mx ex ex') = Z.min ex ex'.
Proof.
  unfold shl_align. destruct (ex' - ex) as [|d|d] eqn:D; cbn [fst snd].
  - replace (ex - Z.min ex ex') with 0 by lia. lia.
  - replace (ex - Z.min ex ex') with 0 by lia. lia.
  - rewrite pos_iter_xO. replace (ex - Z.min ex ex') with (Z.pos d) by lia.
    lia.
Qed.

Lemma Zdigits2_mul_pow2 (m k : Z) :
  0 < m -> 0 <= k -> Zdigits2 (m * 2 ^ k) = Zdigits2 m + k.
Proof.
  intros Hm Hk. destruct (Zdigits2_bounds m Hm) as [B1 B2].
  assert (0 < Zdigits2 m) by (destruct m; simpl in *; lia).
  assert (0 < 2 ^ k) by (apply Z.pow_pos_nonneg; lia).
  apply Zdigits2_unique; [|lia]. split.
  - replace (Zdigits2 m + k - 1) with (Zdigits2 m - 1 + k) by lia.
    rewrite Z.pow_add_r by lia. nia.
  - rewrite Z.pow_add_r by lia. nia.
Qed.

(** [binary_round] of a positive mantissa, from the least exponent up. *)
Lemma binary_round_spec (s : bool) (mx : positive) (ex : Z) :
  -1074 <= ex ->
  valid_binary Float64.prec Float64.emax
    (binary_round Float64.prec Float64.emax s mx ex) = true /\
  forall z, binary_round Float64.prec Float64.emax s mx ex <> S754_zero z.
Proof.
  intros Hex. unfold binary_round.
  set (ex' := fexp Float64.prec Float64.emax (Z.pos (digits2_pos mx) + ex)).
  pose proof (shl_align_spec mx ex ex') as [A1 A2].
  destruct (shl_align mx ex ex') as [mz ez]. cbn [fst snd] in *.
  assert (-1074 <= ex') by (unfold ex'; rewrite fexp64; lia).
  assert (ez <= fexp Float64.prec Float64.emax (Zdigits2 (Z.pos mz) + ez)).
  { rewrite A1, Zdigits2_mul_pow2 by lia. subst ez.
    replace (Zdigits2 (Z.pos mx) + (ex - Z.min ex ex') + Z.min ex ex')
      with (Z.pos (digits2_pos mx) + ex) by (simpl; lia).
    fold ex'. lia. }
  split.
  - apply binary_round_aux_valid; lia.
  - apply binary_round_aux_nonzero; lia.
Qed.

Lemma binary_normalize_nonzero (m e : Z) (szero : bool) :
  m <> 0 -> -1074 <= e ->
  forall z,
    binary_normalize Float64.prec Float64.emax m e szero <> S754_zero z.
Proof.
  intros Hm He z. destruct m as [|p|p]; [done| |]; simpl;
    by apply binary_round_spec.
Qed.

Lemma valid_finite (s : bool) (m : positive) (e : Z) :
  valid_binary Float64.prec Float64.emax (S754_finite s m e) = true ->
  fexp Float64.prec Float64.emax (Z.pos (digits2_pos m) + e) = e /\
  -1074 <= e.
Proof.
  cbn [valid_binary]. unfold bounded, canonical_mantissa.
  intros [C%Z.eqb_eq _]%andb_true_iff. split; [done|].
  rewrite fexp64 in C. lia.
Qed.

Lemma canonical_aligned_eq (mx my : positive) (ex ey : Z) :
  fexp Float64.prec Float64.emax (Z.pos (digits2_pos mx) + ex) = ex ->
  fexp Float64.prec Float64.emax (Z.pos (digits2_pos my) + ey) = ey ->
  Z.pos mx * 2 ^ (ex - Z.min ex ey) = Z.pos my * 2 ^ (ey - Z.min ex ey) ->
  mx = my /\ ex = ey.
Proof.
  intros Cx Cy E.
  assert (Zdigits2 (Z.pos mx * 2 ^ (ex - Z.min ex ey)) =
          Zdigits2 (Z.pos my * 2 ^ (ey - Z.min ex ey))) as D by (by rewrite E).
  rewrite !Zdigits2_mul_pow2 in D by lia. cbn [Zdigits2] in D.
  assert (Z.pos (digits2_pos mx) + ex = Z.pos (digits2_pos my) + ey) as S
    by lia.
  rewrite S in Cx. assert (ex = ey) as <- by congruence.
  split; [|done]. replace (ex - Z.min ex ex) with 0 in E by lia. lia.
Qed.

Lemma SFcompare_refl_finite (s : bool) (m : positive) (e : Z) :
  SFeqb (S754_finite s m e) (S754_finite s m e) = true.
Proof.
  unfold SFeqb, SFcompare.
  change (Pos.compare_cont Eq m m) with (Pos.compare m m).
  rewrite Z.compare_refl, Pos.compare_refl. by destruct s.
Qed.

(** The difference of two valid floats that [!=] tells apart is not a
    zero: no underflow to zero in a subtraction. *)
Lemma sub_nonzero (x y : Float64.float) :
  valid_binary Float64.prec Float64.emax x = true ->
  valid_binary Float64.prec Float64.emax y = true ->
  LineCreator.float_ne x y = true ->
  LineCreator.is_zero (Float64.sub x y) = false.
Proof.
  intros Vx Vy Hne. unfold LineCreator.float_ne in Hne.
  apply negb_true_iff in Hne.
  destruct x as [sx|sx| |sx mx ex], y as [sy|sy| |sy my ey];
    try done; try (by destruct sx, sy).
  apply valid_finite in Vx as [Cx Ex], Vy as [Cy Ey].
  unfold Float64.sub, SFsub.
  pose proof (shl_align_spec mx ex (Z.min ex ey)) as [A1 _].
  pose proof (shl_align_spec my ey (Z.min ex ey)) as [A2 _].
  replace (Z.min ex (Z.min ex ey)) with (Z.min ex ey) in A1 by lia.
  replace (Z.min ey (Z.min ex ey)) with (Z.min ex ey) in A2 by lia.
  set (D := cond_Zopp sx _ - cond_Zopp sy _).
  assert (D <> 0) as HD.
  { unfold D. rewrite A1, A2.
    assert (0 < Z.pos mx * 2 ^ (ex - Z.min ex ey))
      by (apply Z.mul_pos_pos; [done|apply Z.pow_pos_nonneg; lia]).
    assert (0 < Z.pos my * 2 ^ (ey - Z.min ex ey))
      by (apply Z.mul_pos_pos; [done|apply Z.pow_pos_nonneg; lia]).
    destruct sx, sy; cbn [cond_Zopp]; try lia.
    - intros E.
      destruct (canonical_aligned_eq mx my ex ey Cx Cy) as [-> ->]; [lia|].
      by rewrite SFcompare_refl_finite in Hne.
    - intros E.
      destruct (canonical_aligned_eq mx my ex ey Cx Cy) as [-> ->]; [lia|].
      by rewrite SFcompare_refl_finite in Hne. }
  pose proof (binary_normalize_nonzero D (Z.min ex ey) false HD) as N.
  destruct (binary_normalize _ _ D _ _) as [z| | |] eqn:B; try done.
  exfalso. eapply N; [lia|done].
Qed.

End Binary64.

Lemma of_ratio_valid (s : bool) (n d : Z) :
  (0 <= n)%Z -> (0 < d)%Z -> valid64 (Float64.of_ratio s n d).
Proof.
  intros Hn Hd. unfold valid64, Float64.of_ratio.
  destruct (Z.div_eucl (Z.shiftl n 1074) d) as [q r] eqn:E.
  assert (q = (Z.shiftl n 1074 / d)%Z) as Hq
    by (unfold Z.div; by rewrite E).
  apply binary_round_aux_valid; [|lia|rewrite fexp64; lia].
  rewrite Hq. apply Z.div_pos; [|done]. by apply Z.shiftl_nonneg.
Qed.

Lemma decimal_to_float_valid (s : bool) (n ex : Z) :
  (0 <= n)%Z -> valid64 (PyStr.decimal_to_float s n ex).
Proof.
  intros Hn. unfold PyStr.decimal_to_float.
  destruct (Z.leb_spec 0 ex).
  - apply of_ratio_valid; [|lia].
    apply Z.mul_nonneg_nonneg; [done|]. apply Z.pow_nonneg. lia.
  - apply of_ratio_valid; [done|]. apply Z.pow_pos_nonneg; lia.
Qed.

Lemma span_digits_digits (cs : list ascii) :
  Forall (fun c => PyStr.isdigit c = true) (PyStr.span_digits cs).1.
Proof.
  induction cs as [|c cs IH]; simpl; [constructor|].
  destruct (PyStr.isdigit c) eqn:Hc; [|constructor].
  destruct (PyStr.span_digits cs) as [ds r]. simpl in *. by constructor.
Qed.

Lemma digits_to_Z_nonneg (ds : list ascii) :
  Forall (fun c => PyStr.isdigit c = true) ds ->
  (0 <= PyStr.digits_to_Z ds)%Z.
Proof.
  unfold PyStr.digits_to_Z. intros H.
  assert (forall acc,
            (0 <= acc)%Z ->
            (0 <= fold_left
                    (fun acc c => 10 * acc + (Z.of_N (PyStr.code c) - 48))
                    ds acc)%Z) as G; [|by apply G].
  induction H as [|c ds Hc _ IH]; intros acc Hacc; simpl; [done|].
  apply IH. unfold PyStr.isdigit in Hc.
  apply andb_true_iff in Hc as [Hc%N.leb_le _]. lia.
Qed.

Lemma parse_number_valid (s : bool) (cs : list ascii) (x : Float64.float) :
  PyStr.parse_number s cs = Some x -> valid64 x.
Proof.
  unfold PyStr.parse_number.
  pose proof (span_digits_digits cs) as Hip.
  destruct (PyStr.span_digits cs) as [ip r1]. cbn [fst] in Hip.
  assert (exists fp r2,
            match r1 with
            | c :: r =>
                if Ascii.eqb c "." then PyStr.span_digits r else ([], r1)
            | [] => ([], [])
            end = (fp, r2) /\
            Forall (fun c => PyStr.isdigit c = true) fp)
    as (fp & r2 & -> & Hfp).
  { destruct r1 as [|c r]; [by eexists _, _|].
    destruct (Ascii.eqb c "."); [|by eexists _, _].
    pose proof (span_digits_digits r).
    destruct (PyStr.span_digits r) as [fp r2]. by eexists _, _. }
  destruct (ip ++ fp) as [|d ds] eqn:D; [done|].
  destruct (PyStr.parse_exponent r2) as [ex|]; [|done].
  intros [= <-]. apply decimal_to_float_valid, digits_to_Z_nonneg.
  rewrite <- D. by apply Forall_app.
Qed.

(** What [float] returns is a well-formed binary64 value. *)
Lemma float_valid (str : string) (x : Float64.float) :
  PyStr.float str = Some x -> valid64 x.
Proof.
  unfold PyStr.float.
  destruct (PyStr.strip_c _) as [|c0 cs0]; [done|].
  destruct (PyStr.remove_underscores _ _) as [cs'|]; [|done].
  destruct (PyStr.take_sign cs') as [s body].
  destruct body as [|c body]; [done|].
  destruct (_ || _); [apply parse_number_valid|].
  unfold PyStr.parse_inf_or_nan.
  destruct (_ || _); [by intros [= <-]|].
  destruct (String.eqb _ _); [by intros [= <-]|done].
Qed.

Lemma getitem_float_valid (parts : list string) (i : nat)
    (x : Float64.float) :
  getitem parts i ≫= py_float = Ok x -> valid64 x.
Proof.
  unfold getitem, py_float. destruct (parts !! i) as [p|]; [|done].
  rewrite result_bind_ok.
  destruct (PyStr.float p) as [y|] eqn:F; [|done].
  intros [= <-]. by eapply float_valid.
Qed.

Lemma parsed_samples_wellformed (fs : directory) (filepath : string)
    (data : list Sample) :
  HistogramAnalysis.parse_navigation_log fs filepath = Ok data ->
  Forall (fun s => valid64 (xte s) /\ valid64 (lat s) /\ valid64 (lon s))
    data.
Proof.
  unfold HistogramAnalysis.parse_navigation_log.
  destruct (fs !! filepath) as [text|]; [|done].
  rewrite parse_text_rows. intros H%mapM_samples.
  induction H as [|line s lines data (H1 & H2 & H3) _ IH]; constructor;
    [|done].
  split_and!; eapply getitem_float_valid; eassumption.
Qed.

(** X20. Every sample that the parser returns holds three well-formed
    binary64 values, which may be infinite or NaN: no field is ever
    left denormalised or out of range by the conversion from text. *)
Theorem parsed_samples_valid (fs : directory) (filepath : string)
    (data : list Sample) :
  HistogramAnalysis.parse_navigation_log fs filepath = Ok data ->
  Forall (fun s => valid64 (xte s) /\ valid64 (lat s) /\ valid64 (lon s))
    data.
Proof. apply parsed_samples_wellformed. Qed.

Lemma create_ab_line_some (point_a point_b : Sample) :
  valid64 (lat point_a) -> valid64 (lat point_b) ->
  LineCreator.create_ab_line point_a point_b =
  Some (LineCreator.mkABLine point_a point_b
          (if LineCreator.float_ne (lat point_b) (lat point_a)
           then Float64.div
                  (Float64.sub (lon point_b) (lon point_a))
                  (Float64.sub (lat point_b) (lat point_a))
           else Float64.inf)).
Proof.
  intros Va Vb. unfold LineCreator.create_ab_line.
  destruct (LineCreator.float_ne (lat point_b) (lat point_a)) eqn:Hne;
    [|done].
  unfold LineCreator.truediv. by rewrite sub_nonzero.
Qed.

(** X21. [create_ab_line] never divides by zero, whatever the two points
    are, provided their latitudes are well-formed floats: the test
    [point_b['lat'] != point_a['lat']] is enough, since the difference
    of two floats that differ is never a zero. The slope is the
    quotient of the differences, and [inf] when the latitudes are
    equal. *)
Theorem create_ab_line_valid (point_a point_b : Sample) :
  valid64 (lat point_a) -> valid64 (lat point_b) ->
  LineCreator.create_ab_line point_a point_b =
  Some (LineCreator.mkABLine point_a point_b
          (if LineCreator.float_ne (lat point_b) (lat point_a)
           then Float64.div
                  (Float64.sub (lon point_b) (lon point_a))
                  (Float64.sub (lat point_b) (lat point_a))
           else Float64.inf)).
Proof. apply create_ab_line_some. Qed.

Lemma getitem_last_cons {A} (x : A) (l : list A) :
  exists y, LineCreator.getitem_last (x :: l) = Ok y /\ y ∈ x :: l.
Proof.
  unfold LineCreator.getitem_last.
  destruct (last (x :: l)) as [y|] eqn:E.
  - exists y. split; [done|]. apply last_Some in E as [l' ->].
    apply elem_of_app. right. by left.
  - by apply last_None in E.
Qed.

(** X22. On the runs that the loop of [main] hands on, when there is at
    least one, the first steps of [plot_combined_navigation] never
    fail: the first run has a first and a last sample, the A-B line
    between them is defined (no [IndexError], no [ZeroDivisionError]),
    and [all_lats] and [all_lons] have the same length, 2 at least. *)
Theorem ab_line_of_batch (fs : directory) (log_files : list string)
    (tr tr' : list effect) (runs : list Run) :
  LineCreator.process_logs fs log_files [] tr = (tr', Ok runs) ->
  runs <> [] ->
  exists (first_run : Run) (point_a point_b : Sample)
         (ab_line : LineCreator.ABLine),
    head runs = Some first_run /\
    LineCreator.ab_line_points runs = Ok (point_a, point_b) /\
    head (data first_run) = Some point_a /\
    last (data first_run) = Some point_b /\
    LineCreator.create_ab_line point_a point_b = Some ab_line /\
    2 <= length (LineCreator.all_lats runs) /\
    length (LineCreator.all_lats runs) = length (LineCreator.all_lons runs).
Proof.
  intros P Hne.
  assert (HistogramAnalysis.process_logs fs log_files [] tr = (tr', Ok runs))
    as P' by (rewrite <- P; symmetry; apply process_logs_agree).
  apply process_logs_result in P' as (new & -> & Hnew). cbn [app] in *.
  destruct new as [|r rs]; [done|].
  apply Forall_cons in Hnew as [(f & _ & _ & Hparse & Hlen) _].
  apply parsed_samples_wellformed in Hparse.
  destruct (data r) as [|a d] eqn:D; [simpl in Hlen; lia|].
  destruct (getitem_last_cons a d) as (b & Hb & Hin).
  assert (valid64 (lat a)) as Va.
  { apply Forall_cons in Hparse as [(_ & ? & _) _]. done. }
  assert (valid64 (lat b)) as Vb.
  { eapply Forall_forall in Hparse as (_ & ? & _); done. }
  exists r, a, b. eexists. split_and!.
  - done.
  - unfold LineCreator.ab_line_points, getitem. cbn [lookup list_lookup].
    rewrite result_bind_ok, D. cbn [lookup list_lookup].
    rewrite result_bind_ok, Hb. done.
  - by rewrite D.
  - rewrite D. unfold LineCreator.getitem_last in Hb.
    by destruct (last (a :: d)); simplify_eq.
  - by apply create_ab_line_some.
  - unfold LineCreator.all_lats. cbn [flat_map].
    rewrite length_app, length_map, D. simpl in *. lia.
  - unfold LineCreator.all_lats, LineCreator.all_lons.
    generalize (r :: rs) as l. induction l as [|x l IH]; [done|].
    cbn [flat_map]. by rewrite !length_app, !length_map, IH.
Qed.

Lemma parsed_samples_valid_witness :
  Forall (fun s => valid64 (xte s) /\ valid64 (lat s) /\ valid64 (lon s))
    (match HistogramAnalysis.parse_navigation_log sample_dir
             "NavigationLog_2.txt" with
     | Ok data => data
     | Raise _ => []
     end).
Proof.
  apply (parsed_samples_valid sample_dir "NavigationLog_2.txt").
  vm_compute. reflexivity.
Defined.

Lemma create_ab_line_valid_witness :
  LineCreator.create_ab_line
    (mkSample Float64.zero (Float64.of_Z 45) (Float64.of_Z (-93)))
    (mkSample Float64.zero (Float64.of_Z 46) (Float64.of_Z (-93))) =
  Some (LineCreator.mkABLine
          (mkSample Float64.zero (Float64.of_Z 45) (Float64.of_Z (-93)))
          (mkSample Float64.zero (Float64.of_Z 46) (Float64.of_Z (-93)))
          (if LineCreator.float_ne (Float64.of_Z 46) (Float64.of_Z 45)
           then Float64.div
                  (Float64.sub (Float64.of_Z (-93)) (Float64.of_Z (-93)))
                  (Float64.sub (Float64.of_Z 46) (Float64.of_Z 45))
           else Float64.inf)).
Proof.
  apply (create_ab_line_valid
           (mkSample Float64.zero (Float64.of_Z 45) (Float64.of_Z (-93)))
           (mkSample Float64.zero (Float64.of_Z 46) (Float64.of_Z (-93)))).
  - reflexivity.
  - reflexivity.
Defined.

Lemma ab_line_of_batch_witness :
  exists (first_run : Run) (point_a point_b : Sample)
         (ab_line : LineCreator.ABLine),
    head (flat_map (usable_run sample_dir) (glob_sorted sample_dir))
      = Some first_run /\
    LineCreator.ab_line_points
      (flat_map (usable_run sample_dir) (glob_sorted sample_dir))
      = Ok (point_a, point_b) /\
    head (data first_run) = Some point_a /\
    last (data first_run) = Some point_b /\
    LineCreator.create_ab_line point_a point_b = Some ab_line /\
    2 <= length (LineCreator.all_lats
                   (flat_map (usable_run sample_dir)
                      (glob_sorted sample_dir))) /\
    length (LineCreator.all_lats
              (flat_map (usable_run sample_dir) (glob_sorted sample_dir))) =
    length (LineCreator.all_lons
              (flat_map (usable_run sample_dir) (glob_sorted sample_dir))).
Proof.
  apply (ab_line_of_batch sample_dir (glob_sorted sample_dir) []
           (flat_map (progress sample_dir) (glob_sorted sample_dir))).
  - vm_compute. reflexivity.
  - vm_compute. discriminate.
Defined.

(** X23. The two tools pick the same runs: on every folder and list of
    files the loops of the two [main]s print the same lines and end with
    the same list of runs, or with the same exception. *)
Theorem batch_loops_same (fs : directory) (log_files : list string)
    (all_runs_data : list Run) (tr : list effect) :
  HistogramAnalysis.process_logs fs log_files all_runs_data tr =
  LineCreator.process_logs fs log_files all_runs_data tr.
Proof. symmetry. apply process_logs_agree. Qed.
